(** * Equilibrium statistic: a shallow embedding of [main.py]

    The program repeatedly replaces a dataset by the triple
    [mean; median; mode] of its previous state until the triple has a
    spread of at most epsilon (convergence) or has been the same for 1000
    rounds (stagnation).

    Numbers.  The code is embedded twice.

    - Over canonical rationals [Qc], where equality is Leibniz equality and
      the order is total: the embedding of the general theorems.  The
      interpreter rounds where [Qc] does not, so a theorem over [Qc] is
      stated through what the code computes ([calculate_mean data],
      [Py.sum data], ...) and with the equalities it needs as hypotheses;
      it uses no law of exact arithmetic that binary64 lacks, unless it
      says so.

    - Over the numbers of the interpreter, module [B64]: an [int] of any
      size or a binary64 [float], with the rounding, the overflow and the
      [OverflowError] of the conversions.  It evaluates the code at
      concrete inputs, and carries what is said about failures.  [sum]
      adds from the left, as CPython does up to 3.11.  A NaN compares
      unequal to everything, itself included; the identity of objects,
      which [in] and [==] on lists look at first, is not modelled.

    Exceptions.  A Python call either returns or raises: [result].

    The loop.  [while True] is modelled with fuel; [None] means that the
    fuel ran out before the loop returned. *)

From Stdlib Require Import List Arith ZArith Lia Bool.
From Stdlib Require Ascii String.
From Stdlib Require Import QArith Qcanon Lqa.
From Stdlib Require Import Permutation Sorted.
From Stdlib Require PrimFloat SpecFloat FloatOps.
Import ListNotations.

Set Warnings "-inexact-float".

(** ** Python results *)

Inductive exn : Type :=
| ZeroDivisionError
| StatisticsError
| ValueError
| IndexError
| OverflowError.

Inductive result (A : Type) : Type :=
| Ok (a : A)
| Raise (e : exn).

Arguments Ok {A} a.
Arguments Raise {A} e.

Definition bind {A B : Type} (r : result A) (k : A -> result B) : result B :=
  match r with
  | Ok a => k a
  | Raise e => Raise e
  end.

Notation "x <- r ;; k" := (bind r (fun x => k))
  (at level 61, r at next level, right associativity).

(** ** Python numbers and built-ins *)

Module Py.

Local Open Scope Qc_scope.

(** A decimal literal [n / d]. *)
Definition lit (n : Z) (d : positive) : Qc := Q2Qc (n # d).

(** [int] to number, for [len(data)] used as a divisor. *)
Definition of_nat (n : nat) : Qc := Q2Qc (inject_Z (Z.of_nat n)).

(** [x == y] *)
Definition eqb (x y : Qc) : bool := Qeq_bool x y.

(** [x < y] *)
Definition ltb (x y : Qc) : bool :=
  match x ?= y with Lt => true | _ => false end.

(** [x <= y] *)
Definition leb (x y : Qc) : bool :=
  match x ?= y with Gt => false | _ => true end.

(** [x / y], true division. *)
Definition div (x y : Qc) : result Qc :=
  if eqb y 0 then Raise ZeroDivisionError else Ok (x / y).

(** [sum(data)]: left fold of [+] from 0. *)
Definition sum (data : list Qc) : Qc := fold_left Qcplus data 0.

(** [min(values)]: the first minimal element; [ValueError] when empty. *)
Definition min (values : list Qc) : result Qc :=
  match values with
  | [] => Raise ValueError
  | v :: rest => Ok (fold_left (fun m x => if ltb x m then x else m) rest v)
  end.

(** [max(values)]: the first maximal element; [ValueError] when empty. *)
Definition max (values : list Qc) : result Qc :=
  match values with
  | [] => Raise ValueError
  | v :: rest => Ok (fold_left (fun m x => if ltb m x then x else m) rest v)
  end.

(** [max] over the counts of a [Counter]. *)
Definition max_count (counts : list nat) : result nat :=
  match counts with
  | [] => Raise ValueError
  | c :: rest => Ok (fold_left Nat.max rest c)
  end.

(** [sorted(data)]: a stable sort that compares with [<] only. *)
Fixpoint insert (x : Qc) (l : list Qc) : list Qc :=
  match l with
  | [] => [x]
  | y :: l' => if ltb x y then x :: y :: l' else y :: insert x l'
  end.

Definition sorted (data : list Qc) : list Qc :=
  fold_left (fun acc x => insert x acc) data [].

(** [l[i]] for [0 <= i]; [IndexError] out of range. *)
Definition index {A : Type} (l : list A) (i : nat) : result A :=
  match nth_error l i with
  | Some a => Ok a
  | None => Raise IndexError
  end.

(** [statistics.median(data)] of the standard library: the middle value of
    the sorted data, or the mean of the two middle values. *)
Definition median (data : list Qc) : result Qc :=
  let data := sorted data in
  let n := length data in
  if Nat.eqb n 0 then Raise StatisticsError
  else if Nat.eqb (n mod 2) 1 then index data (n / 2)
  else
    let i := (n / 2)%nat in
    a <- index data (i - 1) ;;
    b <- index data i ;;
    div (a + b) (of_nat 2).

(** [Counter(data)]: a dict in insertion order from value to count;
    [self[elem] = self.get(elem, 0) + 1] for each element in turn. *)
Fixpoint counter_add (x : Qc) (c : list (Qc * nat)) : list (Qc * nat) :=
  match c with
  | [] => [(x, 1%nat)]
  | (k, n) :: c' =>
      if eqb k x then (k, S n) :: c' else (k, n) :: counter_add x c'
  end.

Definition Counter (data : list Qc) : list (Qc * nat) :=
  fold_left (fun c x => counter_add x c) data [].

(** [a == b] on lists of numbers ([a != b] is its negation). *)
Fixpoint list_eqb (a b : list Qc) : bool :=
  match a, b with
  | [], [] => true
  | x :: a', y :: b' => eqb x y && list_eqb a' b'
  | _, _ => false
  end.

(** [l[-n:]] for [0 <= n]: the last [n] elements, and all of [l] when
    [n = 0] (Python reads [-0] as [0]). *)
Definition last_n {A : Type} (n : nat) (l : list A) : list A :=
  match n with
  | O => l
  | _ => skipn (length l - n) l
  end.

(** [l[:-n]] for [0 < n]: all but the last [n] elements. *)
Definition drop_last {A : Type} (n : nat) (l : list A) : list A :=
  firstn (length l - n) l.

End Py.

(** ** The calculators *)

Definition calculate_mean (data : list Qc) : result Qc :=
  Py.div (Py.sum data) (Py.of_nat (length data)).

Definition calculate_median (data : list Qc) : result Qc :=
  Py.median data.

(** The body of the [try] block of [calculate_mode]. *)
Definition calculate_mode_try (data : list Qc) : result Qc :=
  let counter := Py.Counter data in
  max_count <- Py.max_count (map snd counter) ;;
  if Nat.eqb max_count 1 then calculate_mean data
  else
    let modes :=
      map fst (filter (fun vc => Nat.eqb (snd vc) max_count) counter) in
    Py.min modes.

(** [try: ... except Exception: return calculate_mean(data)] *)
Definition calculate_mode (data : list Qc) : result Qc :=
  match calculate_mode_try data with
  | Ok v => Ok v
  | Raise _ => calculate_mean data
  end.

(** ** The termination predicates *)

(** [check_stagnation(iteration_history, stagnation_window)]; the window is
    a natural number here (the engine passes the default, 1000). *)
Definition check_stagnation (iteration_history : list (list Qc))
    (stagnation_window : nat) : result bool :=
  if Nat.ltb (length iteration_history) stagnation_window then Ok false
  else
    let recent_iterations := Py.last_n stagnation_window iteration_history in
    first_iteration <- Py.index recent_iterations 0 ;;
    Ok (forallb (fun iteration => Py.list_eqb iteration first_iteration)
          (tl recent_iterations)).

Definition check_convergence (values : list Qc) (epsilon : Qc) : result bool :=
  if Nat.ltb (length values) 2 then Ok true
  else
    min_val <- Py.min values ;;
    max_val <- Py.max values ;;
    Ok (Py.leb (max_val - min_val)%Qc epsilon).

Definition calculate_statistics (data : list Qc) : result (Qc * Qc * Qc) :=
  mean <- calculate_mean data ;;
  median <- calculate_median data ;;
  mode <- calculate_mode data ;;
  Ok (mean, median, mode).

(** ** The iteration engine *)

(** [epsilon]: a number, or the string ['*'] for stagnation-only mode. *)
Inductive criterion : Type :=
| Epsilon (epsilon : Qc)
| StagnationOnly.

(** Which [return] of the loop was taken (the banner that is printed). *)
Inductive termination : Type :=
| Converged
| Stagnated.

(** What a run returns: [absolute_stat, iteration_history].  [reason] and
    [iterations] record the banner: which return was taken and the value of
    the counter [iteration] at that moment. *)
Record outcome : Type := {
  reason : termination;
  iterations : nat;
  absolute_stat : Qc;
  history : list (list Qc)
}.

(** One pass through the body of [while True]: it returns, or goes on with
    a new [current_data], [iteration] and [iteration_history]. *)
Inductive step : Type :=
| Return (o : outcome)
| Continue (current_data : list Qc) (iteration : nat)
    (iteration_history : list (list Qc)).

Section Round.

(** The convergence predicate called by the body of the loop. *)
Variable convergence : list Qc -> Qc -> result bool.

Definition equilibrium_round_with (epsilon : criterion)
    (current_data : list Qc) (iteration : nat)
    (iteration_history : list (list Qc)) : result step :=
  stats <- calculate_statistics current_data ;;
  let '(mean, median, mode) := stats in
  let new_data := [mean; median; mode] in
  let iteration_history := iteration_history ++ [[mean; median; mode]] in
  let iteration := S iteration in
  converged <- match epsilon with
               | StagnationOnly => Ok false
               | Epsilon e => convergence new_data e
               end ;;
  if converged : bool then
    absolute_stat <- Py.div (Py.sum new_data) (Py.of_nat (length new_data)) ;;
    Ok (Return {| reason := Converged; iterations := iteration;
                  absolute_stat := absolute_stat;
                  history := iteration_history |})
  else
    stagnated <- check_stagnation iteration_history 1000 ;;
    if stagnated : bool then
      absolute_stat <- Py.div (Py.sum new_data) (Py.of_nat (length new_data)) ;;
      let iteration_history :=
        if Nat.leb 1000 (length iteration_history)
        then Py.drop_last 999 iteration_history
        else iteration_history in
      Ok (Return {| reason := Stagnated; iterations := iteration;
                    absolute_stat := absolute_stat;
                    history := iteration_history |})
    else Ok (Continue new_data iteration iteration_history).

End Round.

Definition equilibrium_round : criterion -> list Qc -> nat ->
    list (list Qc) -> result step :=
  equilibrium_round_with check_convergence.

(** [while True: ...] with fuel. *)
Fixpoint equilibrium_loop (fuel : nat) (epsilon : criterion)
    (current_data : list Qc) (iteration : nat)
    (iteration_history : list (list Qc)) : option (result outcome) :=
  match fuel with
  | O => None
  | S fuel' =>
      match equilibrium_round epsilon current_data iteration
              iteration_history with
      | Raise e => Some (Raise e)
      | Ok (Return o) => Some (Ok o)
      | Ok (Continue new_data iteration' iteration_history') =>
          equilibrium_loop fuel' epsilon new_data iteration'
            iteration_history'
      end
  end.

(** [equilibrium_statistic(initial_data, epsilon)]; [show_graph] is not
    used by the function, and the printing is left out. *)
Definition equilibrium_statistic (fuel : nat) (initial_data : list Qc)
    (epsilon : criterion) : option (result outcome) :=
  equilibrium_loop fuel epsilon initial_data 0 [].

(** The triples of the first [n] rounds from [current_data], whether or not
    the loop would have returned on the way: the history as it grows. *)
Fixpoint triples (n : nat) (current_data : list Qc)
    : result (list (list Qc)) :=
  match n with
  | O => Ok []
  | S n' =>
      stats <- calculate_statistics current_data ;;
      let '(mean, median, mode) := stats in
      rest <- triples n' [mean; median; mode] ;;
      Ok ([mean; median; mode] :: rest)
  end.

(** ** The numbers of the interpreter

    The same functions over Python's own numbers.  A dataset typed
    [List[float]] may hold [int]s as well (the examples of the
    specification do), so a number is an [int] or a [float]. *)

Module B64.

Import PrimFloat.
Local Open Scope Z_scope.

(** A Python number: an [int] of any size or a [float] (binary64). *)
Inductive num : Type :=
| Int (z : Z)
| Float (f : float).

(** The numbers that are floats. *)
Definition is_float (x : num) : Prop :=
  match x with
  | Float _ => True
  | Int _ => False
  end.

(** A list that the interpreter can hold: its length is at most
    [sys.maxsize], which is [2**63 - 1]. *)
Definition fits {A : Type} (l : list A) : Prop :=
  Z.of_nat (length l) < 2 ^ 63.

(** [float(z)] of an [int]: the nearest binary64 value, ties to even;
    [OverflowError] from [2**1024 - 2**970] on, where that value would be
    infinite. *)
Definition int_to_float (z : Z) : result float :=
  if 2 ^ 1024 - 2 ^ 970 <=? Z.abs z then Raise OverflowError
  else Ok (FloatOps.SF2Prim (SpecFloat.binary_normalize 53 1024 z 0 false)).

(** The operand of a mixed operation as a [float]. *)
Definition to_float (x : num) : result float :=
  match x with
  | Int z => int_to_float z
  | Float f => Ok f
  end.

(** [a / b] of two [int]s, [b] not zero: the binary64 value nearest to the
    exact quotient, ties to even; [OverflowError] when it would be
    infinite.  The quotient is taken with at least 55 bits, the remainder
    says on which side of the half the rest lies. *)
Definition int_true_divide (a b : Z) : result float :=
  let negate := xorb (a <? 0) (b <? 0) in
  let a' := Z.abs a in
  let b' := Z.abs b in
  if a' =? 0 then Ok (if negate then neg_zero else zero)
  else
    let k := Z.max 0 (Z.log2 b' + 55 - Z.log2 a') in
    let q := (a' * 2 ^ k) / b' in
    let r := (a' * 2 ^ k) mod b' in
    let l := if r =? 0 then SpecFloat.loc_Exact
             else SpecFloat.loc_Inexact (2 * r ?= b') in
    match SpecFloat.binary_round_aux 53 1024 negate q (- k) l with
    | SpecFloat.S754_infinity _ => Raise OverflowError
    | x => Ok (FloatOps.SF2Prim x)
    end.

(** [x == 0] for a divisor. *)
Definition is_zero (x : num) : bool :=
  match x with
  | Int z => z =? 0
  | Float f => eqb f zero
  end.

(** [x + y] *)
Definition add (x y : num) : result num :=
  match x, y with
  | Int a, Int b => Ok (Int (a + b))
  | _, _ => a <- to_float x ;; b <- to_float y ;; Ok (Float (a + b))
  end.

(** [x - y] *)
Definition sub (x y : num) : result num :=
  match x, y with
  | Int a, Int b => Ok (Int (a - b))
  | _, _ => a <- to_float x ;; b <- to_float y ;; Ok (Float (a - b))
  end.

(** [x / y], true division. *)
Definition truediv (x y : num) : result num :=
  match x, y with
  | Int a, Int b =>
      if b =? 0 then Raise ZeroDivisionError
      else f <- int_true_divide a b ;; Ok (Float f)
  | _, _ =>
      a <- to_float x ;;
      b <- to_float y ;;
      if is_zero y then Raise ZeroDivisionError else Ok (Float (a / b))
  end.

(** An [int] against a [float], compared by value without rounding;
    [None] when the float is a NaN. *)
Definition compare_int_float (z : Z) (f : float) : option comparison :=
  match FloatOps.Prim2SF f with
  | SpecFloat.S754_nan => None
  | SpecFloat.S754_infinity s => Some (if s then Gt else Lt)
  | SpecFloat.S754_zero _ => Some (z ?= 0)
  | SpecFloat.S754_finite s m e =>
      let v := if s then Z.neg m else Z.pos m in
      Some (if 0 <=? e then z ?= v * 2 ^ e else z * 2 ^ (- e) ?= v)
  end.

(** [x < y] *)
Definition lt (x y : num) : bool :=
  match x, y with
  | Int a, Int b => a <? b
  | Float a, Float b => ltb a b
  | Int a, Float b =>
      match compare_int_float a b with Some Lt => true | _ => false end
  | Float a, Int b =>
      match compare_int_float b a with Some Gt => true | _ => false end
  end.

(** [x == y] *)
Definition eq (x y : num) : bool :=
  match x, y with
  | Int a, Int b => a =? b
  | Float a, Float b => eqb a b
  | Int a, Float b =>
      match compare_int_float a b with Some Eq => true | _ => false end
  | Float a, Int b =>
      match compare_int_float b a with Some Eq => true | _ => false end
  end.

(** [x <= y] *)
Definition le (x y : num) : bool :=
  match x, y with
  | Int a, Int b => a <=? b
  | Float a, Float b => leb a b
  | Int a, Float b =>
      match compare_int_float a b with
      | Some Lt | Some Eq => true
      | _ => false
      end
  | Float a, Int b =>
      match compare_int_float b a with
      | Some Gt | Some Eq => true
      | _ => false
      end
  end.

(** [len(data)] as a number. *)
Definition len {A : Type} (l : list A) : num := Int (Z.of_nat (length l)).

(** [sum(data)]: [+] from the left, starting from the int [0]. *)
Definition sum (data : list num) : result num :=
  fold_left (fun acc x => a <- acc ;; add a x) data (Ok (Int 0)).

(** [min(values)]: the first minimal element; [ValueError] when empty. *)
Definition min (values : list num) : result num :=
  match values with
  | [] => Raise ValueError
  | v :: rest => Ok (fold_left (fun m x => if lt x m then x else m) rest v)
  end.

(** [max(values)]: the first maximal element; [ValueError] when empty. *)
Definition max (values : list num) : result num :=
  match values with
  | [] => Raise ValueError
  | v :: rest => Ok (fold_left (fun m x => if lt m x then x else m) rest v)
  end.

(** [sorted(data)]: a stable sort that compares with [<] only. *)
Fixpoint insert (x : num) (l : list num) : list num :=
  match l with
  | [] => [x]
  | y :: l' => if lt x y then x :: y :: l' else y :: insert x l'
  end.

Definition sorted (data : list num) : list num :=
  fold_left (fun acc x => insert x acc) data [].

(** [statistics.median(data)] *)
Definition median (data : list num) : result num :=
  let data := sorted data in
  let n := length data in
  if Nat.eqb n 0 then Raise StatisticsError
  else if Nat.eqb (n mod 2) 1 then Py.index data (n / 2)
  else
    let i := (n / 2)%nat in
    a <- Py.index data (i - 1) ;;
    b <- Py.index data i ;;
    s <- add a b ;;
    truediv s (Int 2).

(** [Counter(data)] *)
Fixpoint counter_add (x : num) (c : list (num * nat)) : list (num * nat) :=
  match c with
  | [] => [(x, 1%nat)]
  | (k, n) :: c' =>
      if eq k x then (k, S n) :: c' else (k, n) :: counter_add x c'
  end.

Definition Counter (data : list num) : list (num * nat) :=
  fold_left (fun c x => counter_add x c) data [].

(** [a == b] on lists of numbers. *)
Fixpoint list_eq (a b : list num) : bool :=
  match a, b with
  | [], [] => true
  | x :: a', y :: b' => eq x y && list_eq a' b'
  | _, _ => false
  end.

Definition calculate_mean (data : list num) : result num :=
  s <- sum data ;; truediv s (len data).

Definition calculate_median (data : list num) : result num :=
  median data.

Definition calculate_mode_try (data : list num) : result num :=
  let counter := Counter data in
  max_count <- Py.max_count (map snd counter) ;;
  if Nat.eqb max_count 1 then calculate_mean data
  else
    let modes :=
      map fst (filter (fun vc => Nat.eqb (snd vc) max_count) counter) in
    min modes.

Definition calculate_mode (data : list num) : result num :=
  match calculate_mode_try data with
  | Ok v => Ok v
  | Raise _ => calculate_mean data
  end.

Definition check_stagnation (iteration_history : list (list num))
    (stagnation_window : nat) : result bool :=
  if Nat.ltb (length iteration_history) stagnation_window then Ok false
  else
    let recent_iterations := Py.last_n stagnation_window iteration_history in
    first_iteration <- Py.index recent_iterations 0 ;;
    Ok (forallb (fun iteration => list_eq iteration first_iteration)
          (tl recent_iterations)).

Definition check_convergence (values : list num) (epsilon : num)
    : result bool :=
  if Nat.ltb (length values) 2 then Ok true
  else
    min_val <- min values ;;
    max_val <- max values ;;
    spread <- sub max_val min_val ;;
    Ok (le spread epsilon).

Definition calculate_statistics (data : list num)
    : result (num * num * num) :=
  mean <- calculate_mean data ;;
  median <- calculate_median data ;;
  mode <- calculate_mode data ;;
  Ok (mean, median, mode).

Inductive criterion : Type :=
| Epsilon (epsilon : num)
| StagnationOnly.

Record outcome : Type := {
  reason : termination;
  iterations : nat;
  absolute_stat : num;
  history : list (list num)
}.

Inductive step : Type :=
| Return (o : outcome)
| Continue (current_data : list num) (iteration : nat)
    (iteration_history : list (list num)).

Definition equilibrium_round (epsilon : criterion)
    (current_data : list num) (iteration : nat)
    (iteration_history : list (list num)) : result step :=
  stats <- calculate_statistics current_data ;;
  let '(mean, median, mode) := stats in
  let new_data := [mean; median; mode] in
  let iteration_history := iteration_history ++ [[mean; median; mode]] in
  let iteration := S iteration in
  converged <- match epsilon with
               | StagnationOnly => Ok false
               | Epsilon e => check_convergence new_data e
               end ;;
  if converged : bool then
    absolute_stat <- calculate_mean new_data ;;
    Ok (Return {| reason := Converged; iterations := iteration;
                  absolute_stat := absolute_stat;
                  history := iteration_history |})
  else
    stagnated <- check_stagnation iteration_history 1000 ;;
    if stagnated : bool then
      absolute_stat <- calculate_mean new_data ;;
      let iteration_history :=
        if Nat.leb 1000 (length iteration_history)
        then Py.drop_last 999 iteration_history
        else iteration_history in
      Ok (Return {| reason := Stagnated; iterations := iteration;
                    absolute_stat := absolute_stat;
                    history := iteration_history |})
    else Ok (Continue new_data iteration iteration_history).

Fixpoint equilibrium_loop (fuel : nat) (epsilon : criterion)
    (current_data : list num) (iteration : nat)
    (iteration_history : list (list num)) : option (result outcome) :=
  match fuel with
  | O => None
  | S fuel' =>
      match equilibrium_round epsilon current_data iteration
              iteration_history with
      | Raise e => Some (Raise e)
      | Ok (Return o) => Some (Ok o)
      | Ok (Continue new_data iteration' iteration_history') =>
          equilibrium_loop fuel' epsilon new_data iteration'
            iteration_history'
      end
  end.

Definition equilibrium_statistic (fuel : nat) (initial_data : list num)
    (epsilon : criterion) : option (result outcome) :=
  equilibrium_loop fuel epsilon initial_data 0 [].

End B64.

(** ** The chart *)

(** What [plot_convergence] hands to matplotlib and prints: the x axis
    [iterations], the three series, the band around the final value (drawn
    with an epsilon and more than one entry), the limits of the y axis
    (set when the values are not all the same) and the four numbers of the
    printed summary.  The drawing itself is left out. *)
Record figure : Type := {
  xs : list nat;
  means : list Qc;
  medians : list Qc;
  modes : list Qc;
  zone : option (Qc * Qc);
  ylim : option (Qc * Qc);
  total_iterations : nat;
  initial_spread : Qc;
  final_spread : Qc;
  rate : Qc
}.

(** [[f(x) for x in l]] where [f] may raise. *)
Fixpoint comprehension {A B : Type} (f : A -> result B) (l : list A)
    : result (list B) :=
  match l with
  | [] => Ok []
  | x :: l' => y <- f x ;; ys <- comprehension f l' ;; Ok (y :: ys)
  end.

(** [max(values) - min(values)] *)
Definition spread_of (values : list Qc) : result Qc :=
  max_val <- Py.max values ;;
  min_val <- Py.min values ;;
  Ok (max_val - min_val)%Qc.

(** [max(a, b)] of two numbers: [a] unless [b] is greater. *)
Definition max2 (a b : Qc) : Qc := if Py.ltb a b then b else a.

(** [plot_convergence(iteration_history, epsilon, final_value)]; [None]
    is the early return on an empty history. *)
Definition plot_convergence (iteration_history : list (list Qc))
    (epsilon : criterion) (final_value : Qc) : result (option figure) :=
  match iteration_history with
  | [] => Ok None
  | _ :: _ =>
      let iterations := seq 1 (length iteration_history) in
      means <- comprehension (fun stats => Py.index stats 0)
                 iteration_history ;;
      medians <- comprehension (fun stats => Py.index stats 1)
                   iteration_history ;;
      modes <- comprehension (fun stats => Py.index stats 2)
                 iteration_history ;;
      let zone :=
        match epsilon with
        | Epsilon e =>
            if Nat.ltb 1 (length iteration_history)
            then Some (final_value + e / Py.lit 2 1,
                       final_value - e / Py.lit 2 1)%Qc
            else None
        | StagnationOnly => None
        end in
      let all_values := means ++ medians ++ modes in
      y_min <- Py.min all_values ;;
      y_max <- Py.max all_values ;;
      let y_range := (y_max - y_min)%Qc in
      let ylim :=
        if Py.ltb 0%Qc y_range
        then Some (y_min - Py.lit 1 10 * y_range,
                   y_max + Py.lit 1 10 * y_range)%Qc
        else None in
      first <- Py.index iteration_history 0 ;;
      initial <- spread_of first ;;
      last_entry <- Py.index iteration_history
                      (length iteration_history - 1) ;;
      final <- spread_of last_entry ;;
      rate <- Py.div initial (max2 (Py.lit 1 10000000000) final) ;;
      Ok (Some {| xs := iterations; means := means; medians := medians;
                  modes := modes; zone := zone; ylim := ylim;
                  total_iterations := length iteration_history;
                  initial_spread := initial; final_spread := final;
                  rate := rate |})
  end.

(** ** The console *)

(** A text is the list of its characters, each the number of a Unicode
    code point.  [input()] takes the next line of the console, and raises
    [EOFError] when there is none: [EndOfInput]. *)
Inductive console (A : Type) : Type :=
| Got (a : A) (rest : list (list N))
| EndOfInput.

Arguments Got {A} a rest.
Arguments EndOfInput {A}.

Module Text.

Local Open Scope N_scope.

(** A literal of the source, all of whose characters are ASCII. *)
Definition literal (s : String.string) : list N :=
  map Ascii.N_of_ascii (String.list_ascii_of_string s).

(** [c.isspace()]: the characters that [str.strip] removes. *)
Definition isspace (c : N) : bool :=
  ((9 <=? c) && (c <=? 13)) || ((28 <=? c) && (c <=? 32))
  || (c =? 133) || (c =? 160) || (c =? 5760)
  || ((8192 <=? c) && (c <=? 8202))
  || (c =? 8232) || (c =? 8233) || (c =? 8239) || (c =? 8287)
  || (c =? 12288).

Fixpoint lstrip (s : list N) : list N :=
  match s with
  | [] => []
  | c :: s' => if isspace c then lstrip s' else s
  end.

(** [s.strip()] *)
Definition strip (s : list N) : list N :=
  rev (lstrip (rev (lstrip s))).

(** [s.split(sep)] for a separator of one character; [cur] is the piece
    being read, backwards. *)
Fixpoint split_from (sep : N) (cur : list N) (s : list N)
    : list (list N) :=
  match s with
  | [] => [rev cur]
  | c :: s' =>
      if c =? sep then rev cur :: split_from sep [] s'
      else split_from sep (c :: cur) s'
  end.

Definition split (sep : N) (s : list N) : list (list N) :=
  split_from sep [] s.

(** [s == t] *)
Fixpoint eqb (s t : list N) : bool :=
  match s, t with
  | [], [] => true
  | c :: s', d :: t' => (c =? d) && eqb s' t'
  | _, _ => false
  end.

(** [s in options] *)
Definition among (s : list N) (options : list (list N)) : bool :=
  existsb (eqb s) options.

(** [if s:] a string is true when it is not empty. *)
Definition truthy (s : list N) : bool :=
  match s with
  | [] => false
  | _ :: _ => true
  end.

End Text.

Section Console.

Import String PrimFloat.

(** [float(s)]: the float that the text [s] denotes, which may be an
    infinity or a NaN; [None] when it raises [ValueError]. *)
Variable float : list N -> option PrimFloat.float.

(** [s.lower()] *)
Variable lower : list N -> list N.

Definition float_result (s : list N) : result B64.num :=
  match float s with
  | Some v => Ok (B64.Float v)
  | None => Raise ValueError
  end.

(** The first loop of [get_user_input]: the dataset. *)
Fixpoint read_data (inputs : list (list N)) : console (list B64.num) :=
  match inputs with
  | [] => EndOfInput
  | line :: rest =>
      let data_input := Text.strip line in
      match comprehension (fun x => float_result (Text.strip x))
              (filter (fun x => Text.truthy (Text.strip x))
                 (Text.split 44 data_input)) with
      | Ok data =>
          if Nat.ltb (List.length data) 1 then read_data rest
          else Got data rest
      | Raise _ => read_data rest
      end
  end.

(** The second loop: epsilon, or ['*']. *)
Fixpoint read_epsilon (inputs : list (list N)) : console B64.criterion :=
  match inputs with
  | [] => EndOfInput
  | line :: rest =>
      let epsilon_input := Text.strip line in
      if negb (Text.truthy epsilon_input)
      then Got (B64.Epsilon (B64.Float 0.001)) rest
      else if Text.eqb epsilon_input (Text.literal "*"%string)
      then Got B64.StagnationOnly rest
      else
        match float_result epsilon_input with
        | Ok epsilon =>
            if B64.le epsilon (B64.Int 0) then read_epsilon rest
            else Got (B64.Epsilon epsilon) rest
        | Raise _ => read_epsilon rest
        end
  end.

(** The third loop: whether to show the graph. *)
Fixpoint read_graph (inputs : list (list N)) : console bool :=
  match inputs with
  | [] => EndOfInput
  | line :: rest =>
      let graph_input := lower (Text.strip line) in
      if Text.among graph_input
           (map Text.literal
              [""%string; "y"%string; "yes"%string; "1"%string;
               "true"%string])
      then Got true rest
      else if Text.among graph_input
                (map Text.literal
                   ["n"%string; "no"%string; "0"%string; "false"%string])
      then Got false rest
      else read_graph rest
  end.

(** [get_user_input()]: [data, epsilon, show_graph]. *)
Definition get_user_input (inputs : list (list N))
    : console (list B64.num * B64.criterion * bool) :=
  match read_data inputs with
  | EndOfInput => EndOfInput
  | Got data rest =>
      match read_epsilon rest with
      | EndOfInput => EndOfInput
      | Got epsilon rest =>
          match read_graph rest with
          | EndOfInput => EndOfInput
          | Got show_graph rest => Got (data, epsilon, show_graph) rest
          end
      end
  end.

End Console.

(** ** Vocabulary of the statements *)

Section Vocabulary.

Import Py.
Local Open Scope nat_scope.

Local Abbreviation occ := (count_occ Qc_eq_dec).

(** [m] is a least (greatest) element of [values]. *)
Definition is_min (m : Qc) (values : list Qc) : Prop :=
  In m values /\ forall x, In x values -> (m <= x)%Qc.

Definition is_max (m : Qc) (values : list Qc) : Prop :=
  In m values /\ forall x, In x values -> (x <= m)%Qc.

(** What a [Counter] built from [data] holds: each distinct value of
    [data] once, with the number of its occurrences. *)
Definition counts (c : list (Qc * nat)) (data : list Qc) : Prop :=
  NoDup (map fst c) /\
  (forall k, In k (map fst c) <-> In k data) /\
  (forall k n, In (k, n) c -> n = occ data k).

(** [m] is the greatest number of occurrences of a value in [data]. *)
Definition is_max_count (m : nat) (data : list Qc) : Prop :=
  (exists x, In x data /\ occ data x = m) /\
  (forall x, In x data -> occ data x <= m).

(** The final value: the arithmetic mean of the three components. *)
Definition triple_mean (mean median mode : Qc) : Qc :=
  ((mean + median + mode) / lit 3 1)%Qc.

(** The history that a stagnation return hands back. *)
Definition truncated (iteration_history : list (list Qc))
    : list (list Qc) :=
  if Nat.leb 1000 (length iteration_history)
  then drop_last 999 iteration_history
  else iteration_history.

(** What the body of the loop does after the convergence test has not
    returned: the stagnation test on the history with the new triple. *)
Definition stagnation_decides (epsilon : criterion)
    (current_data : list Qc) (iteration : nat)
    (iteration_history : list (list Qc)) (mean median mode : Qc) : Prop :=
  (check_stagnation (iteration_history ++ [[mean; median; mode]]) 1000
   = Ok true ->
   equilibrium_round epsilon current_data iteration iteration_history
   = Ok (Return {| reason := Stagnated; iterations := S iteration;
                   absolute_stat := triple_mean mean median mode;
                   history :=
                     drop_last 999
                       (iteration_history ++ [[mean; median; mode]]) |})) /\
  (check_stagnation (iteration_history ++ [[mean; median; mode]]) 1000
   = Ok false ->
   equilibrium_round epsilon current_data iteration iteration_history
   = Ok (Continue [mean; median; mode] (S iteration)
           (iteration_history ++ [[mean; median; mode]]))).

(** The convergence test of the round says no. *)
Definition never_converges (epsilon : criterion) (triple : list Qc) : Prop :=
  match epsilon with
  | StagnationOnly => True
  | Epsilon e => check_convergence triple e = Ok false
  end.

(** The round that has brought the history to [h] returns, by convergence
    of the last triple or else by stagnation of [h]. *)
Definition stops_at (epsilon : criterion) (h : list (list Qc))
    (how : termination) : Prop :=
  match how with
  | Converged =>
      exists e, epsilon = Epsilon e /\
                check_convergence (last h []) e = Ok true
  | Stagnated =>
      never_converges epsilon (last h []) /\
      check_stagnation h 1000 = Ok true
  end.

(** The round that has brought the history to [h] does not return. *)
Definition goes_on (epsilon : criterion) (h : list (list Qc)) : Prop :=
  never_converges epsilon (last h []) /\
  check_stagnation h 1000 = Ok false.

(** The history handed back by a return of the kind [how]. *)
Definition returned (how : termination) (h : list (list Qc))
    : list (list Qc) :=
  match how with
  | Converged => h
  | Stagnated => truncated h
  end.

End Vocabulary.

(** * Facts about the built-ins *)

Module PyFacts.

Import Py.
Local Open Scope Qc_scope.

Lemma eqb_eq (x y : Qc) : eqb x y = true <-> x = y.
Proof.
  unfold eqb. rewrite Qeq_bool_iff. split.
  - apply Qc_is_canon.
  - intros ->. reflexivity.
Qed.

Lemma eqb_refl (x : Qc) : eqb x x = true.
Proof. apply eqb_eq. reflexivity. Qed.

Lemma eqb_neq (x y : Qc) : eqb x y = false <-> x <> y.
Proof.
  rewrite <- eqb_eq. destruct (eqb x y); split; congruence.
Qed.

Lemma ltb_lt (x y : Qc) : ltb x y = true <-> x < y.
Proof.
  unfold ltb. rewrite Qclt_alt.
  destruct (x ?= y); split; congruence.
Qed.

Lemma ltb_ge (x y : Qc) : ltb x y = false <-> y <= x.
Proof.
  split; intros H.
  - apply Qcnot_lt_le. rewrite <- ltb_lt. congruence.
  - destruct (ltb x y) eqn:E; [|reflexivity].
    apply ltb_lt in E. exfalso. exact (Qcle_not_lt _ _ H E).
Qed.

Lemma leb_le (x y : Qc) : leb x y = true <-> x <= y.
Proof.
  unfold leb. rewrite Qcle_alt.
  destruct (x ?= y); split; congruence.
Qed.

Lemma Qcle_total (x y : Qc) : x <= y \/ y <= x.
Proof.
  destruct (Qclt_le_dec x y) as [H|H]; [left; apply Qclt_le_weak|right];
    exact H.
Qed.

Lemma list_eqb_eq (a b : list Qc) : list_eqb a b = true <-> a = b.
Proof.
  revert b. induction a as [|x a IH]; intros [|y b]; simpl;
    try (split; congruence).
  rewrite andb_true_iff, eqb_eq, IH. split.
  - intros [-> ->]. reflexivity.
  - intros E. injection E as -> ->. split; reflexivity.
Qed.

Lemma of_nat_S_neq_0 (n : nat) : of_nat (S n) <> 0.
Proof.
  unfold of_nat. intros E. apply Q2Qc_eq_iff in E.
  unfold Qeq in E. simpl in E. lia.
Qed.

Lemma div_of_nat_S (x : Qc) (n : nat) :
  div x (of_nat (S n)) = Ok (x / of_nat (S n)).
Proof.
  unfold div. destruct (eqb (of_nat (S n)) 0) eqn:E; [|reflexivity].
  apply eqb_eq in E. destruct (of_nat_S_neq_0 _ E).
Qed.

Lemma div_of_nat_0 (x : Qc) : div x (of_nat 0) = Raise ZeroDivisionError.
Proof. reflexivity. Qed.

(** [Ok] of two numbers with the same value. *)
Lemma Ok_Qc (x y : Qc) : Qeq_bool x y = true -> Ok x = Ok y.
Proof. intros E. apply eqb_eq in E. now subst. Qed.

Lemma fold_min (rest : list Qc) (v : Qc) :
  is_min (fold_left (fun m x => if ltb x m then x else m) rest v) (v :: rest).
Proof.
  revert v. induction rest as [|y rest IH]; intros v; simpl.
  - split; [now left|]. intros x [<-|[]]. apply Qcle_refl.
  - destruct (IH (if ltb y v then y else v)) as [Hin Hle].
    split.
    + destruct Hin as [E|Hin]; [|now right; right].
      rewrite <- E. destruct (ltb y v); [right; now left|now left].
    + intros x Hx.
      assert (Hm : fold_left (fun m x => if ltb x m then x else m) rest
                     (if ltb y v then y else v)
                   <= (if ltb y v then y else v)) by (apply Hle; now left).
      destruct Hx as [<-|[<-|Hx]].
      * eapply Qcle_trans; [exact Hm|].
        destruct (ltb y v) eqn:E; [|apply Qcle_refl].
        apply Qclt_le_weak, ltb_lt, E.
      * eapply Qcle_trans; [exact Hm|].
        destruct (ltb y v) eqn:E; [apply Qcle_refl|].
        apply ltb_ge, E.
      * apply Hle. now right.
Qed.

Lemma fold_max (rest : list Qc) (v : Qc) :
  is_max (fold_left (fun m x => if ltb m x then x else m) rest v) (v :: rest).
Proof.
  revert v. induction rest as [|y rest IH]; intros v; simpl.
  - split; [now left|]. intros x [<-|[]]. apply Qcle_refl.
  - destruct (IH (if ltb v y then y else v)) as [Hin Hle].
    split.
    + destruct Hin as [E|Hin]; [|now right; right].
      rewrite <- E. destruct (ltb v y); [right; now left|now left].
    + intros x Hx.
      assert (Hm : (if ltb v y then y else v)
                   <= fold_left (fun m x => if ltb m x then x else m) rest
                        (if ltb v y then y else v)) by (apply Hle; now left).
      destruct Hx as [<-|[<-|Hx]].
      * eapply Qcle_trans; [|exact Hm].
        destruct (ltb v y) eqn:E; [|apply Qcle_refl].
        apply Qclt_le_weak, ltb_lt, E.
      * eapply Qcle_trans; [|exact Hm].
        destruct (ltb v y) eqn:E; [apply Qcle_refl|].
        apply ltb_ge, E.
      * apply Hle. now right.
Qed.

Lemma min_spec (values : list Qc) :
  values <> [] -> exists m, min values = Ok m /\ is_min m values.
Proof.
  destruct values as [|v rest]; [congruence|]. intros _.
  eexists. split; [reflexivity|]. apply fold_min.
Qed.

Lemma max_spec (values : list Qc) :
  values <> [] -> exists m, max values = Ok m /\ is_max m values.
Proof.
  destruct values as [|v rest]; [congruence|]. intros _.
  eexists. split; [reflexivity|]. apply fold_max.
Qed.

Lemma is_min_unique (m m' : Qc) (values : list Qc) :
  is_min m values -> is_min m' values -> m = m'.
Proof.
  intros [Hin Hle] [Hin' Hle']. apply Qcle_antisym; auto.
Qed.

Lemma is_max_unique (m m' : Qc) (values : list Qc) :
  is_max m values -> is_max m' values -> m = m'.
Proof.
  intros [Hin Hle] [Hin' Hle']. apply Qcle_antisym; auto.
Qed.

End PyFacts.

(** * The convergence predicate *)

Section Convergence.

Import Py PyFacts.
Local Open Scope Qc_scope.

Lemma check_convergence_short (values : list Qc) (epsilon : Qc) :
  (length values < 2)%nat -> check_convergence values epsilon = Ok true.
Proof.
  intros H. unfold check_convergence.
  apply Nat.ltb_lt in H. now rewrite H.
Qed.

Lemma check_convergence_spread (values : list Qc) (epsilon : Qc) :
  (2 <= length values)%nat ->
  exists min_val max_val,
    is_min min_val values /\ is_max max_val values /\
    check_convergence values epsilon = Ok (leb (max_val - min_val) epsilon).
Proof.
  intros H. unfold check_convergence.
  assert (Hne : values <> []) by (destruct values; simpl in H; [lia|congruence]).
  destruct (min_spec _ Hne) as (mn & Emn & Hmn).
  destruct (max_spec _ Hne) as (mx & Emx & Hmx).
  exists mn, mx. repeat split; try apply Hmn; try apply Hmx.
  apply Nat.ltb_ge in H. rewrite H, Emn, Emx. reflexivity.
Qed.

(** C6.  [check_convergence] returns [True] for an input of length 0 or 1;
    for a longer input it returns [True] exactly when the greatest value
    minus the least value is at most epsilon.  The triple
    (5.0, 5.0004, 5.0002) converges for epsilon 0.001 and not for 0.0001. *)
Theorem check_convergence_spec :
  (forall values epsilon,
      (length values < 2)%nat -> check_convergence values epsilon = Ok true) /\
  (forall values epsilon min_val max_val,
      (2 <= length values)%nat ->
      is_min min_val values -> is_max max_val values ->
      exists b, check_convergence values epsilon = Ok b /\
                (b = true <-> max_val - min_val <= epsilon)) /\
  check_convergence [lit 5 1; lit 50004 10000; lit 50002 10000] (lit 1 1000)
    = Ok true /\
  check_convergence [lit 5 1; lit 50004 10000; lit 50002 10000] (lit 1 10000)
    = Ok false.
Proof.
  split; [exact check_convergence_short|].
  split; [|split; reflexivity].
  intros values epsilon mn mx Hlen Hmn Hmx.
  destruct (check_convergence_spread values epsilon Hlen) as (mn' & mx' & Hmn' & Hmx' & E).
  rewrite (is_min_unique _ _ _ Hmn Hmn'), (is_max_unique _ _ _ Hmx Hmx').
  eexists. split; [exact E|]. apply leb_le.
Qed.

(** The specification at work: a pair with spread 1/2 and epsilon 1/2. *)
Lemma check_convergence_spec_witness :
  (2 <= length [lit 1 1; lit 3 2])%nat /\
  is_min (lit 1 1) [lit 1 1; lit 3 2] /\
  is_max (lit 3 2) [lit 1 1; lit 3 2] /\
  exists b, check_convergence [lit 1 1; lit 3 2] (lit 1 2) = Ok b /\
            (b = true <-> lit 3 2 - lit 1 1 <= lit 1 2).
Proof.
  assert (Hlen : (2 <= length [lit 1 1; lit 3 2])%nat) by (simpl; lia).
  assert (Hmn : is_min (lit 1 1) [lit 1 1; lit 3 2]).
  { split; [now left|]. intros x [<-|[<-|[]]]; apply leb_le; reflexivity. }
  assert (Hmx : is_max (lit 3 2) [lit 1 1; lit 3 2]).
  { split; [right; now left|].
    intros x [<-|[<-|[]]]; apply leb_le; reflexivity. }
  split; [exact Hlen|]. split; [exact Hmn|]. split; [exact Hmx|].
  exact (proj1 (proj2 check_convergence_spec) _ (lit 1 2) _ _ Hlen Hmn Hmx).
Defined.

End Convergence.

(** * The stagnation predicate *)

Section Stagnation.

Import Py PyFacts.
Local Open Scope nat_scope.

Lemma forallb_list_eqb (t : list Qc) (l : list (list Qc)) :
  forallb (fun iteration => list_eqb iteration t) l = true
  <-> l = repeat t (length l).
Proof.
  rewrite forallb_forall. split.
  - intros H. apply Forall_eq_repeat, Forall_forall.
    intros x Hx. symmetry. apply list_eqb_eq, H, Hx.
  - intros E x Hx. rewrite E in Hx. apply repeat_spec in Hx.
    subst x. apply list_eqb_eq. reflexivity.
Qed.

(** For a positive window [w]: true exactly when there are at least [w]
    entries and the last [w] of them are one and the same triple. *)
Lemma check_stagnation_window (w : nat) (h : list (list Qc)) :
  exists b, check_stagnation h (S w) = Ok b /\
    (b = true <->
     S w <= length h /\ exists t, skipn (length h - S w) h = repeat t (S w)).
Proof.
  unfold check_stagnation.
  destruct (Nat.ltb (length h) (S w)) eqn:Elt.
  - exists false. split; [reflexivity|].
    apply Nat.ltb_lt in Elt. split; [discriminate|]. intros [H _]. lia.
  - apply Nat.ltb_ge in Elt.
    change (last_n (S w) h) with (skipn (length h - S w) h).
    pose proof (length_skipn (length h - S w) h) as Hlen.
    destruct (skipn (length h - S w) h) as [|t r] eqn:Er;
      simpl in Hlen; [lia|].
    assert (Hr : length r = w) by lia.
    eexists. split; [reflexivity|]. simpl tl.
    rewrite forallb_list_eqb, Hr. split.
    + intros ->. split; [exact Elt|]. exists t. reflexivity.
    + intros [_ [t' E]]. simpl in E. injection E as <- E. exact E.
Qed.

Lemma check_stagnation_total (h : list (list Qc)) :
  exists b, check_stagnation h 1000 = Ok b.
Proof.
  destruct (check_stagnation_window 999 h) as (b & E & _). now exists b.
Qed.

Lemma check_stagnation_true_iff (h : list (list Qc)) :
  check_stagnation h 1000 = Ok true <->
  1000 <= length h /\ exists t, skipn (length h - 1000) h = repeat t 1000.
Proof.
  destruct (check_stagnation_window 999 h) as (b & E & Hb).
  rewrite E, <- Hb. split; congruence.
Qed.

Lemma check_stagnation_false_iff (h : list (list Qc)) :
  check_stagnation h 1000 = Ok false <->
  ~ (1000 <= length h /\ exists t, skipn (length h - 1000) h = repeat t 1000).
Proof.
  destruct (check_stagnation_window 999 h) as (b & E & Hb).
  rewrite E, <- Hb. destruct b; split; congruence.
Qed.

Lemma skipn_app_exact {A : Type} (h r : list A) (n : nat) :
  length r = n -> skipn (length (h ++ r) - n) (h ++ r) = r.
Proof.
  intros <-. rewrite length_app, Nat.add_sub, skipn_app, skipn_all.
  now rewrite Nat.sub_diag.
Qed.

Lemma check_stagnation_run (h : list (list Qc)) (t : list Qc) :
  check_stagnation (h ++ repeat t 1000) 1000 = Ok true.
Proof.
  apply check_stagnation_true_iff. split.
  - rewrite length_app, repeat_length. lia.
  - exists t. apply skipn_app_exact, repeat_length.
Qed.

Lemma check_stagnation_short (h : list (list Qc)) :
  length h < 1000 -> check_stagnation h 1000 = Ok false.
Proof.
  intros Hlen. apply check_stagnation_false_iff. intros [H _]. lia.
Qed.

(** A run of [w + 1] copies of [t] after a different entry is not a
    stagnation for the window [w + 2]. *)
Lemma check_stagnation_short_run (w : nat) (h : list (list Qc))
    (t t' : list Qc) :
  t' <> t ->
  check_stagnation (h ++ t' :: repeat t (S w)) (S (S w)) = Ok false.
Proof.
  intros Hne.
  destruct (check_stagnation_window (S w) (h ++ t' :: repeat t (S w)))
    as (b & E & Hb).
  rewrite E. destruct b; [|reflexivity]. exfalso.
  destruct (proj1 Hb eq_refl) as [_ [u Eu]].
  rewrite skipn_app_exact in Eu
    by exact (f_equal S (repeat_length t (S w))).
  cbn [repeat] in Eu. injection Eu as -> <- _. congruence.
Qed.

(** C5.  With the window of 1000, [check_stagnation] returns a boolean,
    and returns [True] exactly when the history has at least 1000 entries
    and its last 1000 entries are one and the same triple.  It is [False]
    for a history of fewer than 1000 entries and for a history whose last
    999 entries are the same and preceded by a different one; it is [True]
    for any history followed by 1000 times (7, 7, 7). *)
Theorem check_stagnation_spec :
  (forall h, exists b, check_stagnation h 1000 = Ok b) /\
  (forall h,
      check_stagnation h 1000 = Ok true <->
      1000 <= length h /\
      exists t, skipn (length h - 1000) h = repeat t 1000) /\
  (forall h, length h < 1000 -> check_stagnation h 1000 = Ok false) /\
  (forall h t t',
      t' <> t -> check_stagnation (h ++ t' :: repeat t 999) 1000 = Ok false) /\
  (forall h,
      check_stagnation
        (h ++ repeat [lit 7 1; lit 7 1; lit 7 1] 1000) 1000 = Ok true).
Proof.
  split; [exact check_stagnation_total|].
  split; [exact check_stagnation_true_iff|].
  split; [|split].
  - exact check_stagnation_short.
  - intros h t t' Hne. exact (check_stagnation_short_run 998 h t t' Hne).
  - intros h. apply check_stagnation_run.
Qed.

(** 999 times (7, 7, 7) after (2, 2, 2) and (1, 1, 1) is not stagnation. *)
Lemma check_stagnation_spec_witness :
  [lit 2 1; lit 2 1; lit 2 1] <> [lit 7 1; lit 7 1; lit 7 1] /\
  check_stagnation
    ([[lit 1 1; lit 1 1; lit 1 1]]
       ++ [lit 2 1; lit 2 1; lit 2 1]
            :: repeat [lit 7 1; lit 7 1; lit 7 1] 999) 1000 = Ok false.
Proof.
  assert (Hne : [lit 2 1; lit 2 1; lit 2 1] <> [lit 7 1; lit 7 1; lit 7 1])
    by discriminate.
  split; [exact Hne|].
  exact (proj1 (proj2 (proj2 (proj2 check_stagnation_spec))) _ _ _ Hne).
Defined.

End Stagnation.

(** * The calculators *)

Section Mean.

Import Py PyFacts.
Local Open Scope Qc_scope.

Lemma calculate_mean_nil : calculate_mean [] = Raise ZeroDivisionError.
Proof. reflexivity. Qed.





End Mean.

Section Counting.

Import Py PyFacts.
Local Open Scope nat_scope.

Local Abbreviation occ := (count_occ Qc_eq_dec).

Lemma counter_add_keys (x : Qc) (c : list (Qc * nat)) (k : Qc) :
  In k (map fst (counter_add x c)) <-> In k (map fst c) \/ k = x.
Proof.
  induction c as [|[k' n'] c IH]; simpl.
  - intuition congruence.
  - destruct (eqb k' x) eqn:E; simpl.
    + apply eqb_eq in E. subst k'. intuition congruence.
    + rewrite IH. tauto.
Qed.

Lemma counter_add_NoDup (x : Qc) (c : list (Qc * nat)) :
  NoDup (map fst c) -> NoDup (map fst (counter_add x c)).
Proof.
  induction c as [|[k' n'] c IH]; simpl; intros H.
  - constructor; [intros []|constructor].
  - inversion H as [|? ? Hnin Hnd]; subst.
    destruct (eqb k' x) eqn:E; simpl.
    + constructor; assumption.
    + constructor; [|now apply IH].
      rewrite counter_add_keys. intros [Hin| ->]; [contradiction|].
      apply eqb_neq in E. congruence.
Qed.

Lemma counter_add_entry (x : Qc) (c : list (Qc * nat)) (k : Qc) (n : nat) :
  NoDup (map fst c) ->
  In (k, n) (counter_add x c) ->
  (k <> x /\ In (k, n) c) \/
  (k = x /\ n = 1 /\ ~ In x (map fst c)) \/
  (k = x /\ exists n', n = S n' /\ In (x, n') c).
Proof.
  induction c as [|[k' n'] c IH]; simpl; intros Hnd.
  - intros [E|[]]. injection E as <- <-. right. left. tauto.
  - inversion Hnd as [|? ? Hnin Hnd']; subst.
    destruct (eqb k' x) eqn:E; simpl.
    + apply eqb_eq in E. subst k'. intros [E|Hin].
      * injection E as <- <-. right. right. split; [reflexivity|].
        exists n'. split; [reflexivity|now left].
      * left. split; [|now right].
        intros ->. apply Hnin. apply (in_map fst) in Hin. exact Hin.
    + apply eqb_neq in E. intros [E'|Hin].
      * injection E' as <- <-. left. split; [exact E|now left].
      * destruct (IH Hnd' Hin) as [[Hne H]|[(-> & -> & H)|(-> & m & -> & H)]].
        -- left. split; [exact Hne|now right].
        -- right. left. repeat split. intros [H'|H']; [congruence|tauto].
        -- right. right. split; [reflexivity|].
           exists m. split; [reflexivity|now right].
Qed.

Lemma occ_snoc (d : list Qc) (x k : Qc) :
  occ (d ++ [x]) k = occ d k + (if Qc_eq_dec x k then 1 else 0).
Proof.
  rewrite count_occ_app. simpl. destruct (Qc_eq_dec x k); reflexivity.
Qed.

Lemma counter_add_counts (x : Qc) (c : list (Qc * nat)) (d : list Qc) :
  counts c d -> counts (counter_add x c) (d ++ [x]).
Proof.
  intros (Hnd & Hkeys & Hocc). split; [|split].
  - apply counter_add_NoDup, Hnd.
  - intros k. rewrite counter_add_keys, Hkeys, in_app_iff. simpl.
    intuition congruence.
  - intros k n Hin. rewrite occ_snoc.
    destruct (counter_add_entry x c k n Hnd Hin)
      as [[Hne H]|[(-> & -> & H)|(-> & m & -> & H)]].
    + rewrite (Hocc _ _ H). destruct (Qc_eq_dec x k); [congruence|lia].
    + rewrite Hkeys in H. apply (count_occ_not_In Qc_eq_dec) in H.
      rewrite H. destruct (Qc_eq_dec x x); [reflexivity|congruence].
    + rewrite (Hocc _ _ H). destruct (Qc_eq_dec x x); [lia|congruence].
Qed.

Lemma Counter_fold (data d : list Qc) (c : list (Qc * nat)) :
  counts c d ->
  counts (fold_left (fun c x => counter_add x c) data c) (d ++ data).
Proof.
  revert d c. induction data as [|x data IH]; intros d c H; simpl.
  - now rewrite app_nil_r.
  - replace (d ++ x :: data) with ((d ++ [x]) ++ data)
      by (now rewrite <- app_assoc).
    apply IH, counter_add_counts, H.
Qed.

Lemma Counter_counts (data : list Qc) : counts (Counter data) data.
Proof.
  apply (Counter_fold data [] []). split; [constructor|].
  split; [tauto|]. intros k n [].
Qed.

Lemma fold_max_nat (rest : list nat) (c : nat) :
  In (fold_left Nat.max rest c) (c :: rest) /\
  forall n, In n (c :: rest) -> n <= fold_left Nat.max rest c.
Proof.
  revert c. induction rest as [|y rest IH]; intros c; simpl.
  - split; [now left|]. intros n [<-|[]]. lia.
  - destruct (IH (Nat.max c y)) as [Hin Hle]. split.
    + destruct Hin as [E|Hin]; [|now right; right].
      rewrite <- E. destruct (Nat.max_spec c y) as [[_ ->]|[_ ->]];
        [right; now left|now left].
    + intros n Hn.
      assert (Hm : Nat.max c y <= fold_left Nat.max rest (Nat.max c y))
        by (apply Hle; now left).
      destruct Hn as [<-|[<-|Hn]]; [lia|lia|]. apply Hle. now right.
Qed.

Lemma max_count_spec (data : list Qc) :
  data <> [] ->
  exists m, max_count (map snd (Counter data)) = Ok m /\
            In m (map snd (Counter data)) /\ is_max_count m data.
Proof.
  intros Hne. destruct (Counter_counts data) as (Hnd & Hkeys & Hocc).
  destruct (map snd (Counter data)) as [|c rest] eqn:Ec.
  - exfalso. destruct data as [|x data]; [congruence|].
    assert (Hin : In x (map fst (Counter (x :: data))))
      by (apply Hkeys; now left).
    apply map_eq_nil in Ec. rewrite Ec in Hin. exact Hin.
  - destruct (fold_max_nat rest c) as [Hin Hle].
    exists (fold_left Nat.max rest c). split; [reflexivity|].
    split; [exact Hin|]. rewrite <- Ec in Hin, Hle. split.
    + apply in_map_iff in Hin. destruct Hin as ([k n] & E & Hin).
      simpl in E. subst n. exists k. split.
      * apply Hkeys. apply (in_map fst) in Hin. exact Hin.
      * symmetry. apply Hocc, Hin.
    + intros x Hx. apply Hkeys in Hx. apply in_map_iff in Hx.
      destruct Hx as ([k n] & E & Hkn). simpl in E. subst k.
      rewrite <- (Hocc _ _ Hkn). apply Hle.
      apply (in_map snd) in Hkn. exact Hkn.
Qed.


(** The list [modes] of [calculate_mode]: the values of [data] that occur
    [m] times. *)
Lemma modes_spec (data : list Qc) (m : nat) (v : Qc) :
  In v (map fst (filter (fun vc => Nat.eqb (snd vc) m) (Counter data)))
  <-> In v data /\ occ data v = m.
Proof.
  destruct (Counter_counts data) as (Hnd & Hkeys & Hocc).
  rewrite in_map_iff. split.
  - intros ([k n] & E & Hin). simpl in E. subst k.
    apply filter_In in Hin. destruct Hin as [Hin En].
    simpl in En. apply Nat.eqb_eq in En. split.
    + apply Hkeys. apply (in_map fst) in Hin. exact Hin.
    + rewrite <- (Hocc _ _ Hin). exact En.
  - intros [Hin Ev]. apply Hkeys in Hin. apply in_map_iff in Hin.
    destruct Hin as ([k n] & E & Hin). simpl in E. subst k.
    exists (v, n). split; [reflexivity|]. apply filter_In.
    split; [exact Hin|]. simpl. apply Nat.eqb_eq.
    rewrite (Hocc _ _ Hin). exact Ev.
Qed.

End Counting.

Section Mode.

Import Py PyFacts.
Local Open Scope nat_scope.

Local Abbreviation occ := (count_occ Qc_eq_dec).

(** The two branches of [calculate_mode] on a non-empty dataset. *)
Lemma calculate_mode_cases (data : list Qc) :
  data <> [] ->
  exists m, is_max_count m data /\
    (m = 1 -> calculate_mode data = calculate_mean data) /\
    (m <> 1 ->
     exists v, calculate_mode data = Ok v /\
       In v data /\ occ data v = m /\
       forall w, In w data -> occ data w = m -> (v <= w)%Qc).
Proof.
  intros Hne. destruct (max_count_spec data Hne) as (m & Em & _ & Hm).
  exists m. split; [exact Hm|].
  unfold calculate_mode, calculate_mode_try. rewrite Em. simpl bind.
  split.
  - intros ->. simpl. now destruct (calculate_mean data).
  - intros Hm1. apply Nat.eqb_neq in Hm1. rewrite Hm1.
    destruct Hm as [(x & Hx & Ex) Hle].
    set (modes := map fst (filter (fun vc => Nat.eqb (snd vc) m)
                             (Counter data))).
    assert (Hmodes : modes <> []).
    { assert (Hin : In x modes) by (apply modes_spec; tauto).
      destruct modes; [destruct Hin|congruence]. }
    destruct (min_spec modes Hmodes) as (v & Ev & Hin & Hmin).
    exists v. rewrite Ev. split; [reflexivity|].
    apply modes_spec in Hin. destruct Hin as [Hin Eocc].
    repeat split; try assumption.
    intros w Hw Ew. apply Hmin, modes_spec. tauto.
Qed.

(** A result is the number [v]. *)
Lemma result_is (r : result Qc) (v : Qc) :
  match r with Ok x => eqb x v | Raise _ => false end = true -> r = Ok v.
Proof.
  destruct r as [x|e]; [|discriminate]. intros E.
  apply eqb_eq in E. now subst.
Qed.

(** C3.  On a non-empty dataset, with [m] the greatest number of
    occurrences of a value: when [m] is 1, [calculate_mode] returns the
    arithmetic mean; otherwise it returns the least of the values that
    occur [m] times.  [1, 1, 2, 2, 3] gives 1 and [1, 2, 3, 4] gives 2.5. *)
Theorem calculate_mode_spec :
  (forall data, data <> [] ->
     exists m, is_max_count m data /\
       (m = 1 -> calculate_mode data = calculate_mean data) /\
       (m <> 1 ->
        exists v, calculate_mode data = Ok v /\
          In v data /\ occ data v = m /\
          forall w, In w data -> occ data w = m -> (v <= w)%Qc)) /\
  calculate_mode [lit 1 1; lit 1 1; lit 2 1; lit 2 1; lit 3 1]
    = Ok (lit 1 1) /\
  calculate_mode [lit 1 1; lit 2 1; lit 3 1; lit 4 1] = Ok (lit 5 2) /\
  calculate_mean [lit 1 1; lit 2 1; lit 3 1; lit 4 1] = Ok (lit 5 2).
Proof.
  split; [exact calculate_mode_cases|].
  repeat split; apply result_is; vm_compute; reflexivity.
Qed.

(** The general statement at [1, 1, 2, 2, 3]. *)
Lemma calculate_mode_spec_witness :
  [lit 1 1; lit 1 1; lit 2 1; lit 2 1; lit 3 1] <> [] /\
  exists m, is_max_count m [lit 1 1; lit 1 1; lit 2 1; lit 2 1; lit 3 1] /\
    (m = 1 ->
     calculate_mode [lit 1 1; lit 1 1; lit 2 1; lit 2 1; lit 3 1]
     = calculate_mean [lit 1 1; lit 1 1; lit 2 1; lit 2 1; lit 3 1]) /\
    (m <> 1 ->
     exists v,
       calculate_mode [lit 1 1; lit 1 1; lit 2 1; lit 2 1; lit 3 1] = Ok v /\
       In v [lit 1 1; lit 1 1; lit 2 1; lit 2 1; lit 3 1] /\
       occ [lit 1 1; lit 1 1; lit 2 1; lit 2 1; lit 3 1] v = m /\
       forall w, In w [lit 1 1; lit 1 1; lit 2 1; lit 2 1; lit 3 1] ->
                 occ [lit 1 1; lit 1 1; lit 2 1; lit 2 1; lit 3 1] w = m ->
                 (v <= w)%Qc).
Proof.
  assert (Hne : [lit 1 1; lit 1 1; lit 2 1; lit 2 1; lit 3 1] <> [])
    by discriminate.
  split; [exact Hne|]. exact (proj1 calculate_mode_spec _ Hne).
Defined.

(** On the empty dataset the [try] block raises ([max] of no counts) and
    so does the handler: the division by [len(data)]. *)
Lemma calculate_mode_nil :
  calculate_mode_try [] = Raise ValueError /\
  calculate_mode [] = Raise ZeroDivisionError.
Proof. split; reflexivity. Qed.

End Mode.

(** * The handler of [calculate_mode], over the interpreter's numbers *)

Section Floats.

Import PrimFloat B64.
Local Open Scope Z_scope.

Lemma int_to_float_fits (z : Z) :
  0 <= z < 2 ^ 63 -> exists f, int_to_float z = Ok f.
Proof.
  intros Hz. unfold int_to_float.
  assert (Hb : 2 ^ 63 < 2 ^ 1024 - 2 ^ 970) by (vm_compute; reflexivity).
  destruct (2 ^ 1024 - 2 ^ 970 <=? Z.abs z) eqn:E.
  - apply Z.leb_le in E. rewrite Z.abs_eq in E by tauto.
    destruct Hz as [_ Hz].
    destruct (Z.lt_irrefl _ (Z.lt_trans _ _ _ (Z.le_lt_trans _ _ _ E Hz) Hb)).
  - eexists. reflexivity.
Qed.

Lemma truediv_float_int (s : float) (z : Z) :
  0 < z < 2 ^ 63 -> exists f, truediv (Float s) (Int z) = Ok (Float f).
Proof.
  intros [Hz Hb].
  destruct (int_to_float_fits z) as [f Ef]; [split; [apply Z.lt_le_incl|];
                                              assumption|].
  unfold truediv, to_float, is_zero. rewrite Ef. cbn [bind].
  assert (E : (z =? 0) = false).
  { apply Z.eqb_neq. intros ->. destruct (Z.lt_irrefl _ Hz). }
  rewrite E. eexists. reflexivity.
Qed.

Lemma sum_floats (data : list num) (f : float) :
  Forall is_float data ->
  exists g, fold_left (fun acc x => a <- acc ;; add a x) data (Ok (Float f))
            = Ok (Float g).
Proof.
  intros Hall. revert f. induction Hall as [|x data Hx _ IH]; intros f.
  - now exists f.
  - destruct x as [z|g]; [destruct Hx|]. apply IH.
Qed.

(** On a non-empty list of floats [calculate_mean] returns a float. *)
Lemma calculate_mean_floats (data : list num) :
  data <> [] -> Forall is_float data -> fits data ->
  exists f, B64.calculate_mean data = Ok (Float f).
Proof.
  intros Hne Hall Hlen. unfold B64.calculate_mean, sum, len.
  destruct data as [|x data]; [congruence|].
  inversion Hall as [|? ? Hx Hall']; subst.
  destruct x as [z|f]; [destruct Hx|].
  cbn [fold_left]. change (a <- Ok (Int 0) ;; add a (Float f))
    with (Ok (Float (0 + f))).
  destruct (sum_floats data (0 + f) Hall') as [g ->].
  cbn [bind]. apply truediv_float_int. split; [|exact Hlen].
  cbn [length]. rewrite Nat2Z.inj_succ. apply Zle_lt_succ, Nat2Z.is_nonneg.
Qed.

Lemma insert_floats (x : num) (l : list num) :
  is_float x -> Forall is_float l -> Forall is_float (insert x l).
Proof.
  intros Hx Hl. induction Hl as [|y l Hy Hl IH]; cbn [insert].
  - now constructor.
  - destruct (lt x y); repeat constructor; assumption.
Qed.

Lemma insert_length (x : num) (l : list num) :
  length (insert x l) = S (length l).
Proof.
  induction l as [|y l IH]; cbn [insert]; [reflexivity|].
  destruct (lt x y); cbn [length]; [reflexivity|now rewrite IH].
Qed.

Lemma sorted_floats (data : list num) :
  Forall is_float data -> Forall is_float (sorted data).
Proof.
  unfold sorted. generalize (Forall_nil is_float).
  generalize (@nil num) as acc. intros acc Hacc Hall. revert acc Hacc.
  induction Hall as [|x data Hx _ IH]; intros acc Hacc; [exact Hacc|].
  cbn [fold_left]. apply IH. now apply insert_floats.
Qed.

Lemma sorted_length (data : list num) :
  length (sorted data) = length data.
Proof.
  unfold sorted.
  assert (H : forall acc,
             length (fold_left (fun acc x => insert x acc) data acc)
             = (length data + length acc)%nat).
  { induction data as [|x data IH]; intros acc; [reflexivity|].
    cbn [fold_left length]. rewrite IH, insert_length.
    now rewrite Nat.add_succ_r. }
  rewrite H. cbn [length]. apply Nat.add_0_r.
Qed.

Lemma index_floats (l : list num) (i : nat) :
  Forall is_float l -> (i < length l)%nat ->
  exists f, Py.index l i = Ok (Float f).
Proof.
  intros Hall Hi. unfold Py.index.
  destruct (nth_error l i) as [x|] eqn:E.
  - apply nth_error_In in E. rewrite Forall_forall in Hall.
    specialize (Hall x E). destruct x as [z|f]; [destruct Hall|].
    now exists f.
  - apply nth_error_None in E.
    destruct (Nat.lt_irrefl _ (Nat.lt_le_trans _ _ _ Hi E)).
Qed.

(** On a non-empty list of floats [calculate_median] returns a float. *)
Lemma calculate_median_floats (data : list num) :
  data <> [] -> Forall is_float data ->
  exists f, B64.calculate_median data = Ok (Float f).
Proof.
  intros Hne Hall. unfold B64.calculate_median, median.
  pose proof (sorted_floats data Hall) as Hs.
  pose proof (sorted_length data) as Hl.
  set (s := sorted data) in *. set (n := length s) in *.
  assert (Hn : (1 <= n)%nat).
  { rewrite Hl. destruct data; [congruence|]. cbn [length].
    apply le_n_S, Nat.le_0_l. }
  assert (E0 : Nat.eqb n 0 = false).
  { apply Nat.eqb_neq. intros E. rewrite E in Hn.
    destruct (Nat.nle_succ_0 _ Hn). }
  rewrite E0.
  assert (Hhalf : (n / 2 < n)%nat)
    by (apply Nat.div_lt; [exact Hn|repeat constructor]).
  destruct (Nat.eqb (n mod 2) 1).
  - now apply index_floats.
  - destruct (index_floats s (n / 2 - 1) Hs) as [a ->].
    { eapply Nat.le_lt_trans; [apply Nat.le_sub_l|exact Hhalf]. }
    destruct (index_floats s (n / 2) Hs Hhalf) as [b ->].
    cbn [bind add to_float]. apply truediv_float_int.
    split; vm_compute; reflexivity.
Qed.

Lemma counter_add_floats (x : num) (c : list (num * nat)) :
  is_float x -> Forall is_float (map fst c) ->
  Forall is_float (map fst (counter_add x c)).
Proof.
  intros Hx. induction c as [|[k n] c IH]; cbn [counter_add map fst].
  - intros _. now repeat constructor.
  - intros Hc. inversion Hc as [|? ? Hk Hc']; subst.
    destruct (eq k x); cbn [map fst]; constructor; try assumption.
    now apply IH.
Qed.

Lemma Counter_floats (data : list num) :
  Forall is_float data -> Forall is_float (map fst (Counter data)).
Proof.
  unfold Counter.
  assert (H : forall c, Forall is_float (map fst c) ->
              Forall is_float data ->
              Forall is_float
                (map fst (fold_left (fun c x => counter_add x c) data c))).
  { induction data as [|x data IH]; intros c Hc Hall; [exact Hc|].
    inversion Hall as [|? ? Hx Hall']; subst. cbn [fold_left].
    apply IH; [now apply counter_add_floats|exact Hall']. }
  apply H. constructor.
Qed.

Lemma filter_floats (p : num * nat -> bool) (c : list (num * nat)) :
  Forall is_float (map fst c) -> Forall is_float (map fst (filter p c)).
Proof.
  induction c as [|kn c IH]; cbn [filter map]; [trivial|].
  intros Hc. inversion Hc as [|? ? Hk Hc']; subst.
  destruct (p kn); cbn [map]; [constructor; [exact Hk|]|]; now apply IH.
Qed.

Lemma fold_floats (f : num -> num -> num) (l : list num) (m : num) :
  (forall a b, is_float a -> is_float b -> is_float (f a b)) ->
  is_float m -> Forall is_float l -> is_float (fold_left f l m).
Proof.
  intros Hf Hm Hl. revert m Hm.
  induction Hl as [|x l Hx _ IH]; intros m Hm; [exact Hm|].
  cbn [fold_left]. apply IH. now apply Hf.
Qed.

Lemma min_floats (l : list num) (v : num) :
  Forall is_float l -> min l = Ok v -> is_float v.
Proof.
  intros Hl. destruct Hl as [|x l Hx Hl]; [discriminate|].
  cbn [min]. intros E. injection E as <-.
  apply fold_floats; try assumption.
  intros a b Ha Hb. now destruct (lt b a).
Qed.

Lemma max_floats (l : list num) (v : num) :
  Forall is_float l -> max l = Ok v -> is_float v.
Proof.
  intros Hl. destruct Hl as [|x l Hx Hl]; [discriminate|].
  cbn [max]. intros E. injection E as <-.
  apply fold_floats; try assumption.
  intros a b Ha Hb. now destruct (lt a b).
Qed.

(** On a non-empty list of floats [calculate_mode] returns a float. *)
Lemma calculate_mode_floats (data : list num) :
  data <> [] -> Forall is_float data -> fits data ->
  exists f, B64.calculate_mode data = Ok (Float f).
Proof.
  intros Hne Hall Hlen.
  destruct (calculate_mean_floats data Hne Hall Hlen) as [f Emean].
  unfold B64.calculate_mode.
  destruct (B64.calculate_mode_try data) as [v|e] eqn:Et;
    [|now exists f].
  assert (Hv : is_float v).
  { unfold B64.calculate_mode_try in Et.
    destruct (Py.max_count (map snd (Counter data))) as [m|];
      [|discriminate].
    cbn [bind] in Et. destruct (Nat.eqb m 1).
    - rewrite Emean in Et. injection Et as <-. exact I.
    - apply (min_floats _ _ (filter_floats _ _ (Counter_floats _ Hall)) Et). }
  destruct v as [z|g]; [destruct Hv|]. now exists g.
Qed.

Lemma calculate_statistics_floats (data : list num) :
  data <> [] -> Forall is_float data -> fits data ->
  exists a b c,
    B64.calculate_statistics data = Ok (Float a, Float b, Float c).
Proof.
  intros Hne Hall Hlen. unfold B64.calculate_statistics.
  destruct (calculate_mean_floats data Hne Hall Hlen) as [a ->].
  destruct (calculate_median_floats data Hne Hall) as [b ->].
  destruct (calculate_mode_floats data Hne Hall Hlen) as [c ->].
  now exists a, b, c.
Qed.

End Floats.

Section ModeFailures.

Import PrimFloat B64.
Local Open Scope Z_scope.

Lemma calculate_mode_raises (data : list num) (e : exn) :
  B64.calculate_mode data = Raise e -> B64.calculate_mean data = Raise e.
Proof.
  unfold B64.calculate_mode.
  destruct (B64.calculate_mode_try data); [discriminate|]. exact (fun E => E).
Qed.

(** C7, as the code has it.  The handler of [calculate_mode] catches
    whatever the [try] block raises and returns [calculate_mean(data)] in
    its place.  So [calculate_mode] returns a number whenever
    [calculate_mean(data)] does, and on every non-empty dataset of floats
    it returns a float; and when it fails outward, it is
    [calculate_mean(data)] that fails, with the same exception. *)
Theorem calculate_mode_failures (data : list num) :
  (forall v, B64.calculate_mode_try data = Ok v ->
     B64.calculate_mode data = Ok v) /\
  (forall e, B64.calculate_mode_try data = Raise e ->
     B64.calculate_mode data = B64.calculate_mean data) /\
  (forall m, B64.calculate_mean data = Ok m ->
     exists v, B64.calculate_mode data = Ok v) /\
  (forall e, B64.calculate_mode data = Raise e ->
     B64.calculate_mean data = Raise e) /\
  (data <> [] -> Forall is_float data -> fits data ->
   exists f, B64.calculate_mode data = Ok (Float f)).
Proof.
  split; [|split; [|split; [|split]]].
  - intros v E. unfold B64.calculate_mode. now rewrite E.
  - intros e E. unfold B64.calculate_mode. now rewrite E.
  - intros m E. unfold B64.calculate_mode.
    destruct (B64.calculate_mode_try data) as [v|e]; [now exists v|].
    now exists m.
  - intros e. apply calculate_mode_raises.
  - apply calculate_mode_floats.
Qed.

(** The handler at work.  On the empty dataset the [try] block raises
    [ValueError] ([max] of no counts), on [10**400] it raises
    [OverflowError] (the division of the mean); both are caught, and the
    result is that of [calculate_mean(data)].  On [0.5, 1.5] the general
    statement gives a number. *)
Lemma calculate_mode_failures_witness :
  (B64.calculate_mode_try [] = Raise ValueError /\
   B64.calculate_mode [] = B64.calculate_mean [] /\
   B64.calculate_mean [] = Raise ZeroDivisionError) /\
  (B64.calculate_mode_try [Int (10 ^ 400)] = Raise OverflowError /\
   B64.calculate_mode [Int (10 ^ 400)]
   = B64.calculate_mean [Int (10 ^ 400)]) /\
  ([Float 0.5; Float 1.5] <> [] /\
   Forall is_float [Float 0.5; Float 1.5] /\
   fits [Float 0.5; Float 1.5] /\
   exists f, B64.calculate_mode [Float 0.5; Float 1.5] = Ok (Float f)).
Proof.
  assert (E0 : B64.calculate_mode_try [] = Raise ValueError)
    by reflexivity.
  assert (E1 : B64.calculate_mode_try [Int (10 ^ 400)] = Raise OverflowError)
    by (vm_compute; reflexivity).
  assert (Hne : [Float 0.5; Float 1.5] <> []) by discriminate.
  assert (Hall : Forall is_float [Float 0.5; Float 1.5])
    by (repeat constructor).
  assert (Hlen : fits [Float 0.5; Float 1.5]) by reflexivity.
  split; [|split].
  - split; [exact E0|]. split; [|reflexivity].
    exact (proj1 (proj2 (calculate_mode_failures [])) ValueError E0).
  - split; [exact E1|].
    exact (proj1 (proj2 (calculate_mode_failures [Int (10 ^ 400)]))
             OverflowError E1).
  - split; [exact Hne|]. split; [exact Hall|]. split; [exact Hlen|].
    exact (proj2 (proj2 (proj2 (proj2
             (calculate_mode_failures [Float 0.5; Float 1.5]))))
             Hne Hall Hlen).
Defined.

(** A non-empty dataset on which [calculate_mode] fails outward: the one
    int [10**400].  The sum is an int too large for a float; the division
    of the mean raises in the [try] block, is caught, and raises again in
    the handler. *)
Lemma calculate_mode_fails_outward :
  [Int (10 ^ 400)] <> [] /\
  B64.calculate_mode_try [Int (10 ^ 400)] = Raise OverflowError /\
  B64.calculate_mode [Int (10 ^ 400)] = Raise OverflowError /\
  ~ (exists v, B64.calculate_mode [Int (10 ^ 400)] = Ok v).
Proof.
  assert (E : B64.calculate_mode [Int (10 ^ 400)] = Raise OverflowError)
    by (vm_compute; reflexivity).
  split; [discriminate|]. split; [vm_compute; reflexivity|].
  split; [exact E|]. intros [v Ev]. rewrite E in Ev. discriminate.
Qed.

End ModeFailures.

Section Median.

Import Py PyFacts.
Local Open Scope nat_scope.









End Median.

(** * Reordering the dataset *)

Section Reordering.

Import Py PyFacts.
Local Open Scope nat_scope.

Local Abbreviation occ := (count_occ Qc_eq_dec).









End Reordering.

(** * The order of the additions, over the interpreter's numbers *)

Section Order.

Import PrimFloat B64.


End Order.

(** * The iteration engine *)

Section Engine.

Import Py PyFacts.
Local Open Scope nat_scope.

Lemma final_value (mean median mode : Qc) :
  div (sum [mean; median; mode]) (of_nat (length [mean; median; mode]))
  = Ok (triple_mean mean median mode).
Proof.
  change (length [mean; median; mode]) with (S 2).
  rewrite div_of_nat_S. unfold triple_mean, sum. simpl fold_left.
  f_equal. change (of_nat 3) with (lit 3 1).
  f_equal. ring.
Qed.

Lemma check_convergence_total (values : list Qc) (epsilon : Qc) :
  exists b, check_convergence values epsilon = Ok b.
Proof.
  destruct (Nat.lt_ge_cases (length values) 2) as [H|H].
  - exists true. now apply check_convergence_short.
  - destruct (check_convergence_spread values epsilon H)
      as (mn & mx & _ & _ & E).
    eexists. exact E.
Qed.

(** The body of the loop once the statistics are known. *)
Lemma equilibrium_round_with_stats
    (convergence : list Qc -> Qc -> result bool) (epsilon : criterion)
    (current_data : list Qc) (iteration : nat)
    (iteration_history : list (list Qc)) (mean median mode : Qc) :
  calculate_statistics current_data = Ok (mean, median, mode) ->
  equilibrium_round_with convergence epsilon current_data iteration
    iteration_history
  = (converged <- match epsilon with
                  | StagnationOnly => Ok false
                  | Epsilon e => convergence [mean; median; mode] e
                  end ;;
     if converged : bool then
       Ok (Return {| reason := Converged; iterations := S iteration;
                     absolute_stat := triple_mean mean median mode;
                     history := iteration_history ++ [[mean; median; mode]] |})
     else
       stagnated <-
         check_stagnation (iteration_history ++ [[mean; median; mode]]) 1000 ;;
       if stagnated : bool then
         Ok (Return {| reason := Stagnated; iterations := S iteration;
                       absolute_stat := triple_mean mean median mode;
                       history :=
                         truncated
                           (iteration_history ++ [[mean; median; mode]]) |})
       else Ok (Continue [mean; median; mode] (S iteration)
                  (iteration_history ++ [[mean; median; mode]]))).
Proof.
  intros E. unfold equilibrium_round_with. rewrite E. cbn [bind].
  rewrite final_value. reflexivity.
Qed.

Lemma truncated_stagnated (h : list (list Qc)) :
  check_stagnation h 1000 = Ok true ->
  1000 <= length h /\
  exists t,
    skipn (length h - 1000) h = repeat t 1000 /\
    truncated h = firstn (length h - 1000) h ++ [t] /\
    truncated h = firstn (length h - 999) h /\
    length (truncated h) = length h - 999 /\
    last h [] = t.
Proof.
  intros E. apply check_stagnation_true_iff in E.
  destruct E as [Hlen [t Et]]. split; [exact Hlen|]. exists t.
  split; [exact Et|].
  assert (Etr : truncated h = firstn (length h - 999) h).
  { unfold truncated, drop_last.
    apply Nat.leb_le in Hlen. now rewrite Hlen. }
  pose proof (firstn_skipn (length h - 1000) h) as Hsplit.
  rewrite Et in Hsplit.
  assert (Hpre : length (firstn (length h - 1000) h) = length h - 1000)
    by (rewrite length_firstn; lia).
  set (pre := firstn (length h - 1000) h) in *.
  change (repeat t 1000) with (t :: repeat t 999) in Hsplit.
  split; [|split; [exact Etr|split]].
  - rewrite Etr. rewrite <- Hsplit at 2.
    rewrite firstn_app, Hpre.
    replace (length h - 999 - (length h - 1000)) with 1 by lia.
    rewrite firstn_all2 by lia. reflexivity.
  - rewrite Etr, length_firstn. lia.
  - rewrite <- Hsplit.
    rewrite (repeat_cons 999 t), app_assoc. apply last_last.
Qed.

(** What a return of the loop says about the rounds made: [k] rounds went
    on, the next one produced [mean; median; mode] and returned. *)
Lemma equilibrium_loop_returns (fuel : nat) (epsilon : criterion)
    (current_data : list Qc) (iteration : nat)
    (iteration_history : list (list Qc)) (r : outcome) :
  equilibrium_loop fuel epsilon current_data iteration iteration_history
  = Some (Ok r) ->
  exists k ts mean median mode,
    k < fuel /\
    triples (S k) current_data = Ok (ts ++ [[mean; median; mode]]) /\
    length ts = k /\
    iterations r = iteration + S k /\
    absolute_stat r = triple_mean mean median mode /\
    match reason r with
    | Converged =>
        (exists e, epsilon = Epsilon e /\
                   check_convergence [mean; median; mode] e = Ok true) /\
        history r = iteration_history ++ ts ++ [[mean; median; mode]]
    | Stagnated =>
        check_stagnation
          (iteration_history ++ ts ++ [[mean; median; mode]]) 1000 = Ok true /\
        history r =
          truncated (iteration_history ++ ts ++ [[mean; median; mode]])
    end.
Proof.
  revert current_data iteration iteration_history.
  induction fuel as [|fuel IH]; intros cur it h; [discriminate|].
  cbn [equilibrium_loop]. unfold equilibrium_round.
  destruct (calculate_statistics cur) as [[[a b] c]|e] eqn:Es.
  2:{ unfold equilibrium_round_with. rewrite Es. discriminate. }
  rewrite (equilibrium_round_with_stats _ _ _ _ _ _ _ _ Es).
  assert (Et : triples 1 cur = Ok ([] ++ [[a; b; c]])).
  { cbn [triples]. rewrite Es. reflexivity. }
  assert (Hconv :
    (stagnated <- check_stagnation (h ++ [[a; b; c]]) 1000 ;;
     if stagnated : bool then
       Ok (Return {| reason := Stagnated; iterations := S it;
                     absolute_stat := triple_mean a b c;
                     history := truncated (h ++ [[a; b; c]]) |})
     else Ok (Continue [a; b; c] (S it) (h ++ [[a; b; c]])))
    = match check_stagnation (h ++ [[a; b; c]]) 1000 with
      | Ok true =>
          Ok (Return {| reason := Stagnated; iterations := S it;
                        absolute_stat := triple_mean a b c;
                        history := truncated (h ++ [[a; b; c]]) |})
      | Ok false => Ok (Continue [a; b; c] (S it) (h ++ [[a; b; c]]))
      | Raise e => Raise e
      end).
  { destruct (check_stagnation _ 1000) as [[|]|]; reflexivity. }
  assert (Hrest :
    match check_stagnation (h ++ [[a; b; c]]) 1000 with
    | Ok true =>
        Some (Ok {| reason := Stagnated; iterations := S it;
                    absolute_stat := triple_mean a b c;
                    history := truncated (h ++ [[a; b; c]]) |})
    | Ok false => equilibrium_loop fuel epsilon [a; b; c] (S it)
                    (h ++ [[a; b; c]])
    | Raise e => Some (Raise e)
    end = Some (Ok r) ->
    exists k ts mean median mode,
      k < S fuel /\
      triples (S k) cur = Ok (ts ++ [[mean; median; mode]]) /\
      length ts = k /\
      iterations r = it + S k /\
      absolute_stat r = triple_mean mean median mode /\
      match reason r with
      | Converged =>
          (exists e, epsilon = Epsilon e /\
                     check_convergence [mean; median; mode] e = Ok true) /\
          history r = h ++ ts ++ [[mean; median; mode]]
      | Stagnated =>
          check_stagnation (h ++ ts ++ [[mean; median; mode]]) 1000
          = Ok true /\
          history r = truncated (h ++ ts ++ [[mean; median; mode]])
      end).
  { destruct (check_stagnation (h ++ [[a; b; c]]) 1000) as [[|]|] eqn:Est;
      [| |discriminate].
    - intros E. injection E as <-. exists 0, [], a, b, c.
      split; [lia|]. split; [exact Et|]. split; [reflexivity|].
      split; [cbn [iterations]; lia|]. split; [reflexivity|].
      cbn [reason history app]. split; [exact Est|reflexivity].
    - intros E. destruct (IH _ _ _ E)
        as (k & ts & a' & b' & c' & Hk & Etr & Hlen & Hit & Hab & Hr).
      exists (S k), ([a; b; c] :: ts), a', b', c'.
      split; [lia|]. split.
      { change (triples (S (S k)) cur) with
          (stats <- calculate_statistics cur ;;
           let '(mean, median, mode) := stats in
           rest <- triples (S k) [mean; median; mode] ;;
           Ok ([mean; median; mode] :: rest)).
        rewrite Es. cbn [bind]. rewrite Etr. reflexivity. }
      split; [simpl; lia|]. split; [lia|]. split; [exact Hab|].
      replace (h ++ ([a; b; c] :: ts) ++ [[a'; b'; c']])
        with ((h ++ [[a; b; c]]) ++ ts ++ [[a'; b'; c']])
        by (rewrite <- app_assoc; reflexivity).
      exact Hr. }
  destruct epsilon as [e|].
  - destruct (check_convergence [a; b; c] e) as [[|]|e'] eqn:Ec;
      cbn [bind].
    + intros E. injection E as <-. exists 0, [], a, b, c.
      split; [lia|]. split; [exact Et|]. split; [reflexivity|].
      split; [cbn [iterations]; lia|]. split; [reflexivity|].
      cbn [reason history app]. split; [|reflexivity].
      exists e. split; [reflexivity|exact Ec].
    + rewrite Hconv.
      destruct (check_stagnation (h ++ [[a; b; c]]) 1000) as [[|]|];
        exact Hrest.
    + discriminate.
  - cbn [bind]. rewrite Hconv.
    destruct (check_stagnation (h ++ [[a; b; c]]) 1000) as [[|]|];
      exact Hrest.
Qed.

(** C1.  When a run returns after [N] rounds, the triples of these [N]
    rounds are the full history.  A return by convergence hands the full
    history back, of length [N].  A return by stagnation has [N >= 1000],
    the last 1000 triples of the full history are one triple [t], and the
    returned history is the full history without its last 999 entries: it
    has length [N - 999] and ends with [t], the first of the 1000. *)
Theorem history_length_spec (fuel : nat) (initial_data : list Qc)
    (epsilon : criterion) (r : outcome) :
  equilibrium_statistic fuel initial_data epsilon = Some (Ok r) ->
  exists full,
    triples (iterations r) initial_data = Ok full /\
    length full = iterations r /\
    match reason r with
    | Converged =>
        history r = full /\ length (history r) = iterations r
    | Stagnated =>
        1000 <= iterations r /\
        length (history r) = iterations r - 999 /\
        history r = firstn (iterations r - 999) full /\
        exists t,
          skipn (iterations r - 1000) full = repeat t 1000 /\
          history r = firstn (iterations r - 1000) full ++ [t] /\
          last (history r) [] = t
    end.
Proof.
  unfold equilibrium_statistic. intros E.
  destruct (equilibrium_loop_returns _ _ _ _ _ _ E)
    as (k & ts & a & b & c & Hk & Etr & Hlen & Hit & _ & Hr).
  cbn [app] in Hr. rewrite Nat.add_0_l in Hit.
  exists (ts ++ [[a; b; c]]).
  assert (Hfull : length (ts ++ [[a; b; c]]) = iterations r)
    by (rewrite length_app; simpl; lia).
  rewrite Hit at 1. split; [exact Etr|]. split; [exact Hfull|].
  destruct (reason r).
  - destruct Hr as [_ ->]. split; [reflexivity|exact Hfull].
  - destruct Hr as [Est ->].
    destruct (truncated_stagnated _ Est)
      as (Hge & t & Eskip & Epre & Etrunc & Hlt & Hlast).
    rewrite Hfull in *.
    split; [exact Hge|]. split; [exact Hlt|]. split; [exact Etrunc|].
    exists t. split; [exact Eskip|]. split; [exact Epre|].
    rewrite Epre. apply last_last.
Qed.

(** A run on [5, 5] in stagnation-only mode: 1000 rounds, one entry. *)
Lemma history_length_spec_witness :
  exists r,
    equilibrium_statistic 1000 [lit 5 1; lit 5 1] StagnationOnly
    = Some (Ok r) /\
    reason r = Stagnated /\ iterations r = 1000 /\
    exists full,
      triples (iterations r) [lit 5 1; lit 5 1] = Ok full /\
      length full = iterations r /\
      match reason r with
      | Converged =>
          history r = full /\ length (history r) = iterations r
      | Stagnated =>
          1000 <= iterations r /\
          length (history r) = iterations r - 999 /\
          history r = firstn (iterations r - 999) full /\
          exists t,
            skipn (iterations r - 1000) full = repeat t 1000 /\
            history r = firstn (iterations r - 1000) full ++ [t] /\
            last (history r) [] = t
      end.
Proof.
  eexists. split; [vm_compute; reflexivity|].
  split; [reflexivity|]. split; [reflexivity|].
  apply (history_length_spec 1000 [lit 5 1; lit 5 1] StagnationOnly).
  vm_compute. reflexivity.
Defined.

Lemma stagnation_decides_intro (epsilon : criterion)
    (current_data : list Qc) (iteration : nat)
    (iteration_history : list (list Qc)) (mean median mode : Qc) :
  calculate_statistics current_data = Ok (mean, median, mode) ->
  match epsilon with
  | StagnationOnly => True
  | Epsilon e => check_convergence [mean; median; mode] e = Ok false
  end ->
  stagnation_decides epsilon current_data iteration iteration_history
    mean median mode.
Proof.
  intros Es Hc. unfold stagnation_decides, equilibrium_round.
  rewrite (equilibrium_round_with_stats _ _ _ _ _ _ _ _ Es).
  assert (Econv : match epsilon with
                  | StagnationOnly => Ok false
                  | Epsilon e => check_convergence [mean; median; mode] e
                  end = Ok false) by (destruct epsilon; auto).
  rewrite Econv. cbn [bind]. split; intros Est; rewrite Est; cbn [bind].
  - destruct (truncated_stagnated _ Est) as (Hge & _).
    unfold truncated. apply Nat.leb_le in Hge. now rewrite Hge.
  - reflexivity.
Qed.

Lemma equilibrium_loop_StagnationOnly (fuel : nat)
    (current_data : list Qc) (iteration : nat)
    (iteration_history : list (list Qc)) (r : outcome) :
  equilibrium_loop fuel StagnationOnly current_data iteration
    iteration_history = Some (Ok r) ->
  reason r = Stagnated.
Proof.
  intros E.
  destruct (equilibrium_loop_returns _ _ _ _ _ _ E)
    as (k & ts & a & b & c & _ & _ & _ & _ & _ & Hr).
  destruct (reason r); [|reflexivity].
  destruct Hr as [(e & He & _) _]. discriminate.
Qed.

(** C2.  A round that has computed the triple (mean, median, mode) puts
    it at the end of the history and tests convergence first: with an
    epsilon for which the triple converges, the round returns the mean of
    the three components and the history with the new triple, whatever
    the stagnation test would say.  When the triple does not converge, and
    always in stagnation-only mode, the stagnation test decides.  In
    stagnation-only mode the round is the same whatever the convergence
    predicate is, and a run can only return by stagnation. *)
Theorem equilibrium_round_spec :
  (forall epsilon current_data iteration iteration_history mean median mode,
      calculate_statistics current_data = Ok (mean, median, mode) ->
      (forall e, epsilon = Epsilon e ->
         check_convergence [mean; median; mode] e = Ok true ->
         equilibrium_round epsilon current_data iteration iteration_history
         = Ok (Return {| reason := Converged; iterations := S iteration;
                         absolute_stat := triple_mean mean median mode;
                         history :=
                           iteration_history ++ [[mean; median; mode]] |})) /\
      (forall e, epsilon = Epsilon e ->
         check_convergence [mean; median; mode] e = Ok false ->
         stagnation_decides epsilon current_data iteration
           iteration_history mean median mode) /\
      (epsilon = StagnationOnly ->
         stagnation_decides epsilon current_data iteration
           iteration_history mean median mode)) /\
  (forall convergence current_data iteration iteration_history,
      equilibrium_round_with convergence StagnationOnly current_data
        iteration iteration_history
      = equilibrium_round StagnationOnly current_data iteration
          iteration_history) /\
  (forall fuel initial_data r,
      equilibrium_statistic fuel initial_data StagnationOnly = Some (Ok r) ->
      reason r = Stagnated).
Proof.
  split; [|split].
  - intros epsilon cur it h a b c Es. split; [|split].
    + intros e -> Ec. unfold equilibrium_round.
      rewrite (equilibrium_round_with_stats _ _ _ _ _ _ _ _ Es), Ec.
      reflexivity.
    + intros e -> Ec. now apply stagnation_decides_intro.
    + intros ->. now apply stagnation_decides_intro.
  - intros conv cur it h. reflexivity.
  - intros fuel data r. apply equilibrium_loop_StagnationOnly.
Qed.

(** The first round on [1, 2, 2, 3, 100] with epsilon 100: the triple
    (21.6, 2, 2) has spread 19.6 and converges. *)
Lemma equilibrium_round_spec_witness :
  calculate_statistics [lit 1 1; lit 2 1; lit 2 1; lit 3 1; lit 100 1]
  = Ok (lit 108 5, lit 2 1, lit 2 1) /\
  check_convergence [lit 108 5; lit 2 1; lit 2 1] (lit 100 1) = Ok true /\
  equilibrium_round (Epsilon (lit 100 1))
    [lit 1 1; lit 2 1; lit 2 1; lit 3 1; lit 100 1] 0 []
  = Ok (Return {| reason := Converged; iterations := 1;
                  absolute_stat := triple_mean (lit 108 5) (lit 2 1) (lit 2 1);
                  history := [] ++ [[lit 108 5; lit 2 1; lit 2 1]] |}).
Proof.
  assert (Es : calculate_statistics
                 [lit 1 1; lit 2 1; lit 2 1; lit 3 1; lit 100 1]
               = Ok (lit 108 5, lit 2 1, lit 2 1)).
  { unfold calculate_statistics.
    rewrite (result_is (calculate_mean _) (lit 108 5))
      by (vm_compute; reflexivity).
    rewrite (result_is (calculate_median _) (lit 2 1))
      by (vm_compute; reflexivity).
    rewrite (result_is (calculate_mode _) (lit 2 1))
      by (vm_compute; reflexivity).
    reflexivity. }
  assert (Ec : check_convergence [lit 108 5; lit 2 1; lit 2 1] (lit 100 1)
               = Ok true) by (vm_compute; reflexivity).
  split; [exact Es|]. split; [exact Ec|].
  exact (proj1 (proj1 equilibrium_round_spec _ _ 0 [] _ _ _ Es)
           _ eq_refl Ec).
Defined.

(** ** Datasets of one value *)


Lemma lit_3 : lit 3 1 = (1 + 1 + 1)%Qc.
Proof. apply eqb_eq. reflexivity. Qed.


Lemma three_neq_0 : (1 + 1 + 1)%Qc <> 0%Qc.
Proof. apply eqb_neq. reflexivity. Qed.









Lemma triple_mean_identical (c : Qc) : triple_mean c c c = c.
Proof. unfold triple_mean. rewrite lit_3. field. exact three_neq_0. Qed.

Lemma check_convergence_identical (c e : Qc) :
  (0 <= e)%Qc -> check_convergence [c; c; c] e = Ok true.
Proof.
  intros He. destruct (check_convergence_spread [c; c; c] e)
    as (mn & mx & [Hmn _] & [Hmx _] & ->); [simpl; lia|].
  assert (Emn : mn = c) by (destruct Hmn as [?|[?|[?|[]]]]; congruence).
  assert (Emx : mx = c) by (destruct Hmx as [?|[?|[?|[]]]]; congruence).
  subst. f_equal. apply leb_le.
  replace (c - c)%Qc with 0%Qc by ring. exact He.
Qed.

Lemma check_convergence_identical_neg (c e : Qc) :
  (e < 0)%Qc -> check_convergence [c; c; c] e = Ok false.
Proof.
  intros He. destruct (check_convergence_spread [c; c; c] e)
    as (mn & mx & [Hmn _] & [Hmx _] & ->); [simpl; lia|].
  assert (Emn : mn = c) by (destruct Hmn as [?|[?|[?|[]]]]; congruence).
  assert (Emx : mx = c) by (destruct Hmx as [?|[?|[?|[]]]]; congruence).
  subst. f_equal. destruct (leb (c - c) e) eqn:E; [|reflexivity].
  apply leb_le in E. replace (c - c)%Qc with 0%Qc in E by ring.
  destruct (Qcle_not_lt _ _ E He).
Qed.

(** ** Fixed points *)








(** ** Runs on a dataset of one value *)






End Engine.

(** * Identical values, over the interpreter's numbers *)

Section Rounding.

Import PrimFloat.
Local Open Scope nat_scope.


End Rounding.

(** * What a run raises, over the interpreter's numbers *)

Section Raises.

Import PrimFloat B64.
Local Open Scope nat_scope.

Lemma check_convergence_floats (a b c : float) (epsilon : num) :
  exists r,
    B64.check_convergence [Float a; Float b; Float c] epsilon = Ok r.
Proof.
  assert (Hall : Forall is_float [Float a; Float b; Float c])
    by (repeat constructor).
  unfold B64.check_convergence. cbn [length Nat.ltb Nat.leb].
  destruct (min [Float a; Float b; Float c]) as [mn|] eqn:Emin;
    [|discriminate].
  destruct (max [Float a; Float b; Float c]) as [mx|] eqn:Emax;
    [|discriminate].
  pose proof (min_floats _ _ Hall Emin) as Hmn.
  pose proof (max_floats _ _ Hall Emax) as Hmx.
  destruct mn as [?|mn]; [destruct Hmn|].
  destruct mx as [?|mx]; [destruct Hmx|].
  cbn [bind sub]. eexists. reflexivity.
Qed.

Lemma check_stagnation_returns (h : list (list num)) :
  exists b, B64.check_stagnation h 1000 = Ok b.
Proof.
  unfold B64.check_stagnation.
  destruct (Nat.ltb (length h) 1000) eqn:Elt; [now exists false|].
  apply Nat.ltb_ge in Elt.
  change (Py.last_n 1000 h) with (skipn (length h - 1000) h).
  pose proof (length_skipn (length h - 1000) h) as Hlen.
  destruct (skipn (length h - 1000) h) as [|t r];
    [simpl in Hlen; lia|].
  eexists. reflexivity.
Qed.

(** From a non-empty dataset of floats the loop raises nothing. *)
Lemma equilibrium_loop_floats (fuel : nat) (epsilon : criterion)
    (current_data : list num) (iteration : nat)
    (iteration_history : list (list num)) (e : exn) :
  current_data <> [] -> Forall is_float current_data -> fits current_data ->
  B64.equilibrium_loop fuel epsilon current_data iteration iteration_history
  <> Some (Raise e).
Proof.
  revert current_data iteration iteration_history.
  induction fuel as [|fuel IH]; intros cur it h Hne Hall Hlen;
    [discriminate|].
  cbn [B64.equilibrium_loop]. unfold B64.equilibrium_round.
  destruct (calculate_statistics_floats cur Hne Hall Hlen)
    as (a & b & c & ->).
  cbn [bind].
  assert (Ht : Forall is_float [Float a; Float b; Float c])
    by (repeat constructor).
  assert (Hf : fits [Float a; Float b; Float c]) by reflexivity.
  assert (Hn : [Float a; Float b; Float c] <> []) by discriminate.
  destruct (calculate_mean_floats _ Hn Ht Hf) as [v Ev].
  assert (Hc : exists bc,
             match epsilon with
             | StagnationOnly => Ok false
             | Epsilon eps =>
                 B64.check_convergence [Float a; Float b; Float c] eps
             end = Ok bc).
  { destruct epsilon as [eps|]; [apply check_convergence_floats|].
    now exists false. }
  destruct Hc as [bc ->]. cbn [bind]. destruct bc.
  - rewrite Ev. discriminate.
  - destruct (check_stagnation_returns (h ++ [[Float a; Float b; Float c]]))
      as [bs ->].
    cbn [bind]. destruct bs; [rewrite Ev; discriminate|].
    now apply IH.
Qed.

(** C4, as the code has it.  A run on the empty dataset raises: the
    division by [len(data)] of the first round is not caught.  A run on a
    non-empty dataset of floats raises nothing, whatever the epsilon: an
    epsilon that is not positive is not rejected, it is compared with the
    spread like any other. *)
Theorem equilibrium_statistic_raises :
  (forall fuel epsilon,
      B64.equilibrium_statistic (S fuel) [] epsilon
      = Some (Raise ZeroDivisionError)) /\
  (forall fuel initial_data epsilon e,
      initial_data <> [] -> Forall is_float initial_data ->
      fits initial_data ->
      B64.equilibrium_statistic fuel initial_data epsilon
      <> Some (Raise e)).
Proof.
  split.
  - intros fuel epsilon. reflexivity.
  - intros fuel data epsilon e Hne Hall Hlen.
    now apply equilibrium_loop_floats.
Qed.

(** The run on [5.0] with epsilon -1 does not raise [ValueError]. *)
Lemma equilibrium_statistic_raises_witness :
  [Float 5] <> [] /\ Forall is_float [Float 5] /\ fits [Float 5] /\
  B64.equilibrium_statistic 1000 [Float 5] (Epsilon (Float (-1)))
  <> Some (Raise ValueError).
Proof.
  assert (Hne : [Float 5] <> []) by discriminate.
  assert (Hall : Forall is_float [Float 5]) by (repeat constructor).
  assert (Hlen : fits [Float 5]) by reflexivity.
  split; [exact Hne|]. split; [exact Hall|]. split; [exact Hlen|].
  exact (proj2 equilibrium_statistic_raises 1000 [Float 5]
           (Epsilon (Float (-1))) ValueError Hne Hall Hlen).
Defined.

End Raises.

Section NoValidation.

Import PrimFloat.
Local Open Scope nat_scope.

(** Epsilon 0 and epsilon -1 without the sentinel: the run on [5]
    returns, it does not raise; in exact arithmetic and in binary64. *)
Lemma equilibrium_statistic_raises_counterexample :
  ((Py.lit 0 1 <= 0)%Qc /\
   (exists r,
       equilibrium_statistic 1 [Py.lit 5 1] (Epsilon (Py.lit 0 1))
       = Some (Ok r)) /\
   (Py.lit (-1) 1 <= 0)%Qc /\
   (exists r,
       equilibrium_statistic 1000 [Py.lit 5 1] (Epsilon (Py.lit (-1) 1))
       = Some (Ok r))) /\
  (B64.le (B64.Float 0) (B64.Int 0) = true /\
   B64.equilibrium_statistic 1 [B64.Float 5] (B64.Epsilon (B64.Float 0))
   = Some (Ok {| B64.reason := Converged; B64.iterations := 1;
                 B64.absolute_stat := B64.Float 5;
                 B64.history :=
                   [[B64.Float 5; B64.Float 5; B64.Float 5]] |}) /\
   B64.le (B64.Float (-1)) (B64.Int 0) = true /\
   B64.equilibrium_statistic 1000 [B64.Float 5]
     (B64.Epsilon (B64.Float (-1)))
   = Some (Ok {| B64.reason := Stagnated; B64.iterations := 1000;
                 B64.absolute_stat := B64.Float 5;
                 B64.history :=
                   [[B64.Float 5; B64.Float 5; B64.Float 5]] |})).
Proof.
  split.
  - split; [discriminate|]. split.
    + eexists. vm_compute. reflexivity.
    + split; [discriminate|]. eexists. vm_compute. reflexivity.
  - repeat split; vm_compute; reflexivity.
Qed.

End NoValidation.

(** * Stagnation with a positive epsilon *)

Section PositiveEpsilon.

Import PrimFloat B64.
Local Open Scope nat_scope.

(** More fuel does not change what a run returns. *)
Lemma equilibrium_loop_more_fuel (fuel : nat) (epsilon : criterion)
    (current_data : list num) (iteration : nat)
    (iteration_history : list (list num)) (r : result outcome) :
  B64.equilibrium_loop fuel epsilon current_data iteration iteration_history
  = Some r ->
  forall fuel',
    fuel <= fuel' ->
    B64.equilibrium_loop fuel' epsilon current_data iteration
      iteration_history = Some r.
Proof.
  revert current_data iteration iteration_history.
  induction fuel as [|fuel IH]; intros cur it h E fuel' Hf; [discriminate|].
  destruct fuel' as [|fuel']; [lia|].
  cbn [B64.equilibrium_loop] in *.
  destruct (B64.equilibrium_round epsilon cur it h) as [[o|cur' it' h']|e];
    try exact E.
  apply IH; [exact E|lia].
Qed.

(** In binary64 a run with a positive epsilon can return by stagnation.
    On [1000000000.1, 1000000000.2, 1000000000.2] with epsilon 1e-9 the
    triples reach (1000000000.2000002, 1000000000.2, 1000000000.2), which
    is its own triple of statistics and has a spread above epsilon: the
    run returns on round 1013, by stagnation, with a history of 14
    entries. *)
Theorem positive_epsilon_stagnates (fuel : nat) :
  1013 <= fuel ->
  B64.le (Float 1e-9) (Int 0) = false /\
  B64.calculate_statistics
    [Float 1000000000.2000002; Float 1000000000.2; Float 1000000000.2]
  = Ok (Float 1000000000.2000002, Float 1000000000.2, Float 1000000000.2) /\
  B64.check_convergence
    [Float 1000000000.2000002; Float 1000000000.2; Float 1000000000.2]
    (Float 1e-9) = Ok false /\
  exists r,
    B64.equilibrium_statistic fuel
      [Float 1000000000.1; Float 1000000000.2; Float 1000000000.2]
      (Epsilon (Float 1e-9)) = Some (Ok r) /\
    B64.reason r = Stagnated /\ B64.iterations r = 1013 /\
    B64.absolute_stat r = Float 1000000000.2000002 /\
    length (B64.history r) = 14 /\
    last (B64.history r) []
    = [Float 1000000000.2000002; Float 1000000000.2; Float 1000000000.2].
Proof.
  intros Hf. do 3 (split; [vm_compute; reflexivity|]).
  destruct (B64.equilibrium_statistic 1013
              [Float 1000000000.1; Float 1000000000.2; Float 1000000000.2]
              (Epsilon (Float 1e-9))) as [[r|]|] eqn:E;
    try (vm_compute in E; discriminate E).
  exists r. split.
  - exact (equilibrium_loop_more_fuel _ _ _ _ _ _ E fuel Hf).
  - vm_compute in E. injection E as <-.
    repeat split; vm_compute; reflexivity.
Qed.

Lemma positive_epsilon_stagnates_witness :
  1013 <= 2000 /\
  exists r,
    B64.equilibrium_statistic 2000
      [Float 1000000000.1; Float 1000000000.2; Float 1000000000.2]
      (Epsilon (Float 1e-9)) = Some (Ok r) /\
    B64.reason r = Stagnated /\ B64.iterations r = 1013.
Proof.
  assert (Hf : 1013 <= 2000) by (apply Nat.leb_le; vm_compute; reflexivity).
  split; [exact Hf|].
  destruct (positive_epsilon_stagnates 2000 Hf)
    as (_ & _ & _ & r & E & Hr & Hit & _).
  exists r. split; [exact E|]. split; [exact Hr|exact Hit].
Defined.

End PositiveEpsilon.

(** * What a run returns *)

Section Returns.

Import Py PyFacts.
Local Open Scope nat_scope.

Lemma triples_shape (n : nat) (data : list Qc) (ts : list (list Qc)) :
  triples n data = Ok ts ->
  length ts = n /\ Forall (fun t => length t = 3) ts.
Proof.
  revert data ts. induction n as [|n IH]; intros data ts E.
  - injection E as <-. split; [reflexivity|constructor].
  - cbn [triples] in E.
    destruct (calculate_statistics data) as [[[a b] c]|]; [|discriminate].
    cbn [bind] in E.
    destruct (triples n [a; b; c]) as [rest|] eqn:Er; [|discriminate].
    cbn [bind] in E. injection E as <-.
    destruct (IH _ _ Er) as [Hlen Hall].
    split; [simpl; lia|]. constructor; [reflexivity|exact Hall].
Qed.

Lemma Forall_firstn_of {A : Type} (P : A -> Prop) (n : nat) (l : list A) :
  Forall P l -> Forall P (firstn n l).
Proof.
  intros H. rewrite <- (firstn_skipn n l) in H.
  apply Forall_app in H. tauto.
Qed.

(** The history that a run returns is a prefix of the triples of its
    rounds, is not empty, and ends with the triple of the last round. *)
Lemma returned_history_prefix (fuel : nat) (initial_data : list Qc)
    (epsilon : criterion) (r : outcome) :
  equilibrium_statistic fuel initial_data epsilon = Some (Ok r) ->
  exists ts a b c,
    triples (iterations r) initial_data = Ok (ts ++ [[a; b; c]]) /\
    absolute_stat r = triple_mean a b c /\
    history r = firstn (length (history r)) (ts ++ [[a; b; c]]) /\
    1 <= length (history r) <= iterations r /\
    last (history r) [] = [a; b; c].
Proof.
  intros E. unfold equilibrium_statistic in E.
  destruct (equilibrium_loop_returns _ _ _ _ _ _ E)
    as (k & ts & a & b & c & Hk & Etr & Hlen & Hit & Hab & Hr).
  cbn [app] in Hr. rewrite Nat.add_0_l in Hit.
  exists ts, a, b, c.
  assert (Hfull : length (ts ++ [[a; b; c]]) = iterations r)
    by (rewrite length_app; simpl; lia).
  rewrite Hit at 1. split; [exact Etr|]. split; [exact Hab|].
  destruct (reason r).
  - destruct Hr as [_ ->]. rewrite firstn_all.
    split; [reflexivity|]. split; [lia|apply last_last].
  - destruct Hr as [Est ->].
    destruct (truncated_stagnated _ Est)
      as (Hge & t & Eskip & Epre & Etrunc & Hlt & Hlast).
    rewrite last_last in Hlast. subst t.
    rewrite Hlt. split; [exact Etrunc|].
    split; [lia|]. rewrite Epre. apply last_last.
Qed.

Lemma returned_history_shape_fact (fuel : nat) (initial_data : list Qc)
    (epsilon : criterion) (r : outcome) :
  equilibrium_statistic fuel initial_data epsilon = Some (Ok r) ->
  1 <= length (history r) <= iterations r /\
  iterations r <= fuel /\
  Forall (fun t => length t = 3) (history r).
Proof.
  intros E.
  destruct (returned_history_prefix _ _ _ _ E)
    as (ts & a & b & c & Etr & _ & Hpre & Hlen & _).
  split; [exact Hlen|]. split.
  - unfold equilibrium_statistic in E.
    destruct (equilibrium_loop_returns _ _ _ _ _ _ E)
      as (k & _ & _ & _ & _ & Hk & _ & _ & Hit & _). lia.
  - rewrite Hpre. apply Forall_firstn_of.
    apply (triples_shape _ _ _ Etr).
Qed.

(** The returned history is never empty, it has at most as many entries
    as rounds were made, and each entry holds three numbers. *)
Theorem returned_history_shape (fuel : nat) (initial_data : list Qc)
    (epsilon : criterion) (r : outcome) :
  equilibrium_statistic fuel initial_data epsilon = Some (Ok r) ->
  1 <= length (history r) <= iterations r /\
  iterations r <= fuel /\
  Forall (fun t => length t = 3) (history r).
Proof. apply returned_history_shape_fact. Qed.

Lemma returned_history_shape_witness :
  exists r,
    equilibrium_statistic 10 [lit 1 1; lit 2 1; lit 2 1; lit 3 1; lit 100 1]
      (Epsilon (lit 1 1000)) = Some (Ok r) /\
    1 <= length (history r) <= iterations r /\
    iterations r <= 10 /\
    Forall (fun t => length t = 3) (history r).
Proof.
  eexists. split; [vm_compute; reflexivity|].
  apply (returned_history_shape 10
           [lit 1 1; lit 2 1; lit 2 1; lit 3 1; lit 100 1]
           (Epsilon (lit 1 1000))).
  vm_compute. reflexivity.
Defined.

End Returns.

(** * The round at which a run returns *)

(** Linear arithmetic on [Qc], through [Q]. *)
Ltac qc_lra :=
  unfold Qcle, Qclt, Qcminus, Qcplus, Qcopp, Qcmult, Py.lit, Q2Qc in *;
  cbn [this] in *;
  repeat (rewrite !Qred_correct in * );
  lra.

Section Trace.

Import Py PyFacts.
Local Open Scope nat_scope.

Lemma triples_S (n : nat) (current_data : list Qc) (a b c : Qc) :
  calculate_statistics current_data = Ok (a, b, c) ->
  triples (S n) current_data
  = (rest <- triples n [a; b; c] ;; Ok ([a; b; c] :: rest)).
Proof. intros E. cbn [triples]. rewrite E. reflexivity. Qed.

Lemma last_snoc_app {A : Type} (h : list A) (t d : A) (l : list A) :
  last (h ++ t :: l) d = last (t :: l) d.
Proof.
  induction h as [|x h IH]; [reflexivity|].
  cbn [app]. rewrite <- IH.
  destruct (h ++ t :: l) eqn:E; [|reflexivity].
  destruct h; discriminate.
Qed.

(** The loop returns at the first round that stops: the rounds before it
    go on. *)
Lemma equilibrium_loop_first (fuel : nat) (epsilon : criterion)
    (current_data : list Qc) (iteration : nat)
    (iteration_history : list (list Qc)) (r : outcome) :
  equilibrium_loop fuel epsilon current_data iteration iteration_history
  = Some (Ok r) ->
  exists k ts,
    iterations r = iteration + S k /\
    triples (S k) current_data = Ok ts /\
    stops_at epsilon (iteration_history ++ ts) (reason r) /\
    history r = returned (reason r) (iteration_history ++ ts) /\
    forall j, j < k ->
      goes_on epsilon (iteration_history ++ firstn (S j) ts).
Proof.
  revert current_data iteration iteration_history.
  induction fuel as [|fuel IH]; intros cur it h; [discriminate|].
  cbn [equilibrium_loop]. unfold equilibrium_round.
  destruct (calculate_statistics cur) as [[[a b] c]|e] eqn:Es.
  2:{ unfold equilibrium_round_with. rewrite Es. discriminate. }
  rewrite (equilibrium_round_with_stats _ _ _ _ _ _ _ _ Es).
  assert (Et : triples 1 cur = Ok [[a; b; c]])
    by (rewrite (triples_S 0 cur a b c Es); reflexivity).
  assert (Hlast : last (h ++ [[a; b; c]]) [] = [a; b; c])
    by apply last_last.
  destruct (match epsilon with
            | StagnationOnly => Ok false
            | Epsilon e => check_convergence [a; b; c] e
            end) as [[|]|] eqn:Ec; cbn [bind]; [| |discriminate].
  - intros E. injection E as <-. exists 0, [[a; b; c]].
    cbn [iterations reason history returned].
    split; [lia|]. split; [exact Et|]. split.
    + cbn [stops_at]. rewrite Hlast.
      destruct epsilon as [e|]; [|discriminate].
      exists e. split; [reflexivity|exact Ec].
    + split; [reflexivity|]. intros j Hj. lia.
  - assert (Hnc : never_converges epsilon [a; b; c])
      by (destruct epsilon; [exact Ec|exact I]).
    destruct (check_stagnation (h ++ [[a; b; c]]) 1000) as [[|]|] eqn:Est;
      cbn [bind]; [| |discriminate].
    + intros E. injection E as <-. exists 0, [[a; b; c]].
      cbn [iterations reason history returned].
      split; [lia|]. split; [exact Et|]. split.
      * cbn [stops_at]. rewrite Hlast. split; assumption.
      * split; [reflexivity|]. intros j Hj. lia.
    + intros E.
      destruct (IH _ _ _ E) as (k & ts & Hit & Etr & Hstop & Hhist & Hgo).
      exists (S k), ([a; b; c] :: ts).
      replace (h ++ [a; b; c] :: ts) with ((h ++ [[a; b; c]]) ++ ts)
        by (rewrite <- app_assoc; reflexivity).
      split; [lia|]. split.
      { rewrite (triples_S (S k) cur a b c Es), Etr. reflexivity. }
      split; [exact Hstop|]. split; [exact Hhist|].
      intros [|j] Hj.
      * cbn [firstn]. split; [rewrite Hlast; exact Hnc|exact Est].
      * rewrite (firstn_cons (S j) [a; b; c] ts).
        replace (h ++ [a; b; c] :: firstn (S j) ts)
          with ((h ++ [[a; b; c]]) ++ firstn (S j) ts)
          by (rewrite <- app_assoc; reflexivity).
        apply Hgo. lia.
Qed.

(** Conversely: when the rounds before round [k + 1] go on and that round
    stops, the loop returns there, given the fuel. *)
Lemma equilibrium_loop_stops (epsilon : criterion) (how : termination)
    (k : nat) :
  forall (fuel : nat) (current_data : list Qc) (iteration : nat)
         (iteration_history ts : list (list Qc)) (a b c : Qc),
    k < fuel ->
    triples (S k) current_data = Ok ts ->
    last ts [] = [a; b; c] ->
    stops_at epsilon (iteration_history ++ ts) how ->
    (forall j, j < k ->
       goes_on epsilon (iteration_history ++ firstn (S j) ts)) ->
    equilibrium_loop fuel epsilon current_data iteration iteration_history
    = Some (Ok {| reason := how; iterations := iteration + S k;
                  absolute_stat := triple_mean a b c;
                  history := returned how (iteration_history ++ ts) |}).
Proof.
  induction k as [|k IH];
    intros fuel cur it h ts a b c Hk Etr Hlast Hstop Hgo;
    (destruct fuel as [|fuel]; [lia|]);
    cbn [equilibrium_loop]; unfold equilibrium_round;
    (destruct (calculate_statistics cur) as [[[a1 b1] c1]|] eqn:Es;
     [|cbn [triples] in Etr; rewrite Es in Etr; discriminate]);
    rewrite (triples_S _ cur a1 b1 c1 Es) in Etr;
    rewrite (equilibrium_round_with_stats _ _ _ _ _ _ _ _ Es).
  - cbn [triples bind] in Etr. injection Etr as <-. simpl in Hlast. injection Hlast as -> -> ->.
    replace (it + 1) with (S it) by lia.
    assert (Hl : last (h ++ [[a; b; c]]) [] = [a; b; c]) by apply last_last.
    destruct how; cbn [stops_at returned] in *; rewrite Hl in Hstop.
    + destruct Hstop as (e & -> & Ec). rewrite Ec. reflexivity.
    + destruct Hstop as [Hnc Est].
      assert (Ec : match epsilon with
                   | StagnationOnly => Ok false
                   | Epsilon e => check_convergence [a; b; c] e
                   end = Ok false)
        by (destruct epsilon; [exact Hnc|reflexivity]).
      rewrite Ec. cbn [bind]. rewrite Est. reflexivity.
  - destruct (triples (S k) [a1; b1; c1]) as [rest|] eqn:Er;
      [|discriminate].
    cbn [bind] in Etr. injection Etr as <-.
    destruct (Hgo 0) as [Hnc Est]; [lia|].
    cbn [firstn] in Hnc, Est. rewrite last_last in Hnc.
    assert (Ec : match epsilon with
                 | StagnationOnly => Ok false
                 | Epsilon e => check_convergence [a1; b1; c1] e
                 end = Ok false)
      by (destruct epsilon; [exact Hnc|reflexivity]).
    rewrite Ec. cbn [bind]. rewrite Est. cbn [bind].
    assert (Hrest : rest <> []).
    { intros ->. apply triples_shape in Er. destruct Er; discriminate. }
    assert (Hlast' : last rest [] = [a; b; c]).
    { destruct rest as [|t rest]; [congruence|]. exact Hlast. }
    replace (h ++ [a1; b1; c1] :: rest) with ((h ++ [[a1; b1; c1]]) ++ rest)
      in * by (rewrite <- app_assoc; reflexivity).
    replace (it + S (S k)) with (S it + S k) by lia.
    apply IH; try assumption; [lia|].
    intros j Hj. specialize (Hgo (S j) ltac:(lia)).
    rewrite (firstn_cons (S j) [a1; b1; c1] rest) in Hgo.
    replace (h ++ [a1; b1; c1] :: firstn (S j) rest)
      with ((h ++ [[a1; b1; c1]]) ++ firstn (S j) rest)
      in Hgo by (rewrite <- app_assoc; reflexivity).
    exact Hgo.
Qed.

Lemma run_returns_at_first_stop_fact (fuel : nat) (initial_data : list Qc)
    (epsilon : criterion) (r : outcome) :
  equilibrium_statistic fuel initial_data epsilon = Some (Ok r) ->
  exists ts,
    triples (iterations r) initial_data = Ok ts /\
    stops_at epsilon ts (reason r) /\
    history r = returned (reason r) ts /\
    forall j, 1 <= j < iterations r -> goes_on epsilon (firstn j ts).
Proof.
  intros E. unfold equilibrium_statistic in E.
  destruct (equilibrium_loop_first _ _ _ _ _ _ E)
    as (k & ts & Hit & Etr & Hstop & Hhist & Hgo).
  cbn [app] in *. rewrite Nat.add_0_l in Hit. rewrite Hit.
  exists ts. split; [exact Etr|]. split; [exact Hstop|].
  split; [exact Hhist|].
  intros [|j] Hj; [lia|]. apply (Hgo j). lia.
Qed.

(** A run returns at the first round that stops: its history is that of
    the rounds made, the last round stops in the way reported, and every
    round before it went on. *)
Theorem run_returns_at_first_stop (fuel : nat) (initial_data : list Qc)
    (epsilon : criterion) (r : outcome) :
  equilibrium_statistic fuel initial_data epsilon = Some (Ok r) ->
  exists ts,
    triples (iterations r) initial_data = Ok ts /\
    stops_at epsilon ts (reason r) /\
    history r = returned (reason r) ts /\
    forall j, 1 <= j < iterations r -> goes_on epsilon (firstn j ts).
Proof. apply run_returns_at_first_stop_fact. Qed.

Lemma run_returns_at_first_stop_witness :
  exists r,
    equilibrium_statistic 10 [lit 1 1; lit 2 1; lit 2 1; lit 3 1; lit 100 1]
      (Epsilon (lit 1 1000)) = Some (Ok r) /\
    exists ts,
      triples (iterations r)
        [lit 1 1; lit 2 1; lit 2 1; lit 3 1; lit 100 1] = Ok ts /\
      stops_at (Epsilon (lit 1 1000)) ts (reason r) /\
      history r = returned (reason r) ts /\
      forall j, 1 <= j < iterations r ->
                goes_on (Epsilon (lit 1 1000)) (firstn j ts).
Proof.
  eexists. split; [vm_compute; reflexivity|].
  apply (run_returns_at_first_stop 10
           [lit 1 1; lit 2 1; lit 2 1; lit 3 1; lit 100 1]
           (Epsilon (lit 1 1000))).
  vm_compute. reflexivity.
Defined.

Lemma first_stop_returns_fact (epsilon : criterion) (how : termination)
    (n fuel : nat) (initial_data : list Qc) (ts : list (list Qc))
    (a b c : Qc) :
  1 <= n <= fuel ->
  triples n initial_data = Ok ts ->
  last ts [] = [a; b; c] ->
  stops_at epsilon ts how ->
  (forall j, 1 <= j < n -> goes_on epsilon (firstn j ts)) ->
  equilibrium_statistic fuel initial_data epsilon
  = Some (Ok {| reason := how; iterations := n;
                absolute_stat := triple_mean a b c;
                history := returned how ts |}).
Proof.
  intros Hn Etr Hlast Hstop Hgo. destruct n as [|k]; [lia|].
  unfold equilibrium_statistic.
  rewrite (equilibrium_loop_stops epsilon how k fuel initial_data 0 [] ts
             a b c); try assumption; [reflexivity|lia|].
  intros j Hj. apply Hgo. lia.
Qed.

(** Conversely, when round [n] is the first that stops, a run with fuel
    for [n] rounds returns there: the mean of the last triple, and the
    history of the [n] rounds, truncated if the stop is a stagnation. *)
Theorem first_stop_returns (epsilon : criterion) (how : termination)
    (n fuel : nat) (initial_data : list Qc) (ts : list (list Qc))
    (a b c : Qc) :
  1 <= n <= fuel ->
  triples n initial_data = Ok ts ->
  last ts [] = [a; b; c] ->
  stops_at epsilon ts how ->
  (forall j, 1 <= j < n -> goes_on epsilon (firstn j ts)) ->
  equilibrium_statistic fuel initial_data epsilon
  = Some (Ok {| reason := how; iterations := n;
                absolute_stat := triple_mean a b c;
                history := returned how ts |}).
Proof. apply first_stop_returns_fact. Qed.

Lemma first_stop_returns_witness :
  1 <= 1 <= 7 /\
  triples 1 [lit 4 1; lit 6 1] = Ok [[lit 5 1; lit 5 1; lit 5 1]] /\
  last [[lit 5 1; lit 5 1; lit 5 1]] [] = [lit 5 1; lit 5 1; lit 5 1] /\
  stops_at (Epsilon (lit 1 10)) [[lit 5 1; lit 5 1; lit 5 1]] Converged /\
  equilibrium_statistic 7 [lit 4 1; lit 6 1] (Epsilon (lit 1 10))
  = Some (Ok {| reason := Converged; iterations := 1;
                absolute_stat := triple_mean (lit 5 1) (lit 5 1) (lit 5 1);
                history := returned Converged
                             [[lit 5 1; lit 5 1; lit 5 1]] |}).
Proof.
  assert (Hn : 1 <= 1 <= 7) by lia.
  assert (Es : calculate_statistics [lit 4 1; lit 6 1]
               = Ok (lit 5 1, lit 5 1, lit 5 1)).
  { unfold calculate_statistics.
    rewrite (result_is (calculate_mean _) (lit 5 1))
      by (vm_compute; reflexivity).
    rewrite (result_is (calculate_median _) (lit 5 1))
      by (vm_compute; reflexivity).
    rewrite (result_is (calculate_mode _) (lit 5 1))
      by (vm_compute; reflexivity).
    reflexivity. }
  assert (Etr : triples 1 [lit 4 1; lit 6 1]
                = Ok [[lit 5 1; lit 5 1; lit 5 1]])
    by (rewrite (triples_S 0 _ _ _ _ Es); reflexivity).
  assert (Hlast : last [[lit 5 1; lit 5 1; lit 5 1]] []
                  = [lit 5 1; lit 5 1; lit 5 1]) by reflexivity.
  assert (Hstop : stops_at (Epsilon (lit 1 10))
                    [[lit 5 1; lit 5 1; lit 5 1]] Converged).
  { exists (lit 1 10). split; [reflexivity|]. vm_compute. reflexivity. }
  split; [exact Hn|]. split; [exact Etr|]. split; [exact Hlast|].
  split; [exact Hstop|].
  apply (first_stop_returns _ _ 1 7 _ _ _ _ _ Hn Etr Hlast Hstop).
  intros j Hj. lia.
Defined.

End Trace.

(** * What the two kinds of return tell *)

Section Outcomes.

Import Py PyFacts.
Local Open Scope Qc_scope.

Lemma check_convergence_pairwise_fact (values : list Qc) (epsilon : Qc) :
  (2 <= length values)%nat ->
  (check_convergence values epsilon = Ok true <->
   forall x y, In x values -> In y values -> x - y <= epsilon).
Proof.
  intros Hlen.
  destruct (check_convergence_spread values epsilon Hlen)
    as (mn & mx & [Hmn Hle] & [Hmx Hge] & ->).
  split.
  - intros E x y Hx Hy. injection E as E. apply leb_le in E.
    specialize (Hle y Hy). specialize (Hge x Hx). qc_lra.
  - intros H. f_equal. apply leb_le. now apply H.
Qed.



(** A larger epsilon keeps a convergence, and on two values or more a
    negative epsilon never gives one. *)
Theorem check_convergence_epsilon (values : list Qc) (e e' : Qc) :
  (check_convergence values e = Ok true -> e <= e' ->
   check_convergence values e' = Ok true) /\
  ((2 <= length values)%nat -> e < 0 ->
   check_convergence values e = Ok false).
Proof.
  destruct (Nat.lt_ge_cases (length values) 2) as [Hlen|Hlen].
  - split; [|lia]. intros _ _. now apply check_convergence_short.
  - split.
    + intros E Hee. apply (check_convergence_pairwise_fact _ _ Hlen).
      intros x y Hx Hy.
      pose proof (proj1 (check_convergence_pairwise_fact _ _ Hlen) E x y Hx Hy).
      qc_lra.
    + intros _ He.
      destruct (check_convergence_total values e) as [[|] E];
        [|exact E].
      destruct values as [|x values]; [simpl in Hlen; lia|].
      pose proof (proj1 (check_convergence_pairwise_fact _ _ Hlen) E x x
                    (or_introl eq_refl) (or_introl eq_refl)).
      qc_lra.
Qed.

Lemma check_convergence_epsilon_witness :
  (2 <= length [lit 1 1; lit 2 1])%nat /\ lit (-1) 1 < 0 /\
  check_convergence [lit 1 1; lit 2 1] (lit (-1) 1) = Ok false.
Proof.
  assert (Hlen : (2 <= length [lit 1 1; lit 2 1])%nat) by (simpl; lia).
  assert (He : lit (-1) 1 < 0) by reflexivity.
  split; [exact Hlen|]. split; [exact He|].
  exact (proj2 (check_convergence_epsilon [lit 1 1; lit 2 1]
                  (lit (-1) 1) 0) Hlen He).
Defined.

Lemma converged_within_epsilon_fact (fuel : nat) (initial_data : list Qc)
    (e : Qc) (r : outcome) :
  equilibrium_statistic fuel initial_data (Epsilon e) = Some (Ok r) ->
  reason r = Converged ->
  exists a b c,
    last (history r) [] = [a; b; c] /\
    calculate_mean [a; b; c] = Ok (absolute_stat r) /\
    (forall x y, In x [a; b; c] -> In y [a; b; c] -> x - y <= e).
Proof.
  intros E Hr.
  destruct (returned_history_prefix _ _ _ _ E)
    as (ts & a & b & c & Etr & Hab & _ & _ & Hlast).
  destruct (run_returns_at_first_stop_fact _ _ _ _ E)
    as (ts' & Etr' & Hstop & Hhist & _).
  rewrite Hr in Hstop, Hhist. cbn [stops_at returned] in Hstop, Hhist.
  destruct Hstop as (e' & Ee & Ec). injection Ee as <-.
  rewrite <- Hhist, Hlast in Ec.
  exists a, b, c. split; [exact Hlast|].
  split; [rewrite Hab; apply final_value|].
  apply check_convergence_pairwise_fact; [simpl; lia|exact Ec].
Qed.

(** A return by convergence: the three numbers of the last triple of the
    history are within epsilon of each other, and the value returned is
    their mean, as [calculate_mean] computes it. *)
Theorem converged_within_epsilon (fuel : nat) (initial_data : list Qc)
    (e : Qc) (r : outcome) :
  equilibrium_statistic fuel initial_data (Epsilon e) = Some (Ok r) ->
  reason r = Converged ->
  exists a b c,
    last (history r) [] = [a; b; c] /\
    calculate_mean [a; b; c] = Ok (absolute_stat r) /\
    (forall x y, In x [a; b; c] -> In y [a; b; c] -> x - y <= e).
Proof. apply converged_within_epsilon_fact. Qed.

Lemma converged_within_epsilon_witness :
  exists r,
    equilibrium_statistic 10 [lit 1 1; lit 2 1; lit 2 1; lit 3 1; lit 100 1]
      (Epsilon (lit 1 1000)) = Some (Ok r) /\
    reason r = Converged /\
    exists a b c,
      last (history r) [] = [a; b; c] /\
      calculate_mean [a; b; c] = Ok (absolute_stat r) /\
      (forall x y, In x [a; b; c] -> In y [a; b; c] ->
                   x - y <= lit 1 1000).
Proof.
  eexists. split; [vm_compute; reflexivity|]. split; [reflexivity|].
  apply (converged_within_epsilon 10
           [lit 1 1; lit 2 1; lit 2 1; lit 3 1; lit 100 1] (lit 1 1000)).
  - vm_compute. reflexivity.
  - reflexivity.
Defined.

(** Each triple of the history is the statistics of the one before. *)
Lemma triples_step (n : nat) (data : list Qc) (ts : list (list Qc))
    (i : nat) (t1 t2 : list Qc) :
  triples n data = Ok ts ->
  nth_error ts i = Some t1 -> nth_error ts (S i) = Some t2 ->
  exists a b c, t2 = [a; b; c] /\ calculate_statistics t1 = Ok (a, b, c).
Proof.
  revert data ts i. induction n as [|n IH]; intros data ts i E H1 H2.
  - injection E as <-. destruct i; discriminate.
  - cbn [triples] in E.
    destruct (calculate_statistics data) as [[[a b] c]|]; [|discriminate].
    cbn [bind] in E.
    destruct (triples n [a; b; c]) as [rest|] eqn:Er; [|discriminate].
    cbn [bind] in E. injection E as <-.
    destruct i as [|i].
    + cbn [nth_error] in H1, H2. injection H1 as <-.
      destruct n as [|n]; [injection Er as <-; discriminate|].
      cbn [triples] in Er.
      destruct (calculate_statistics [a; b; c]) as [[[a' b'] c']|];
        [|discriminate].
      cbn [bind] in Er.
      destruct (triples n [a'; b'; c']) as [rest'|]; [|discriminate].
      cbn [bind] in Er. injection Er as <-.
      cbn [nth_error] in H2. injection H2 as <-.
      exists a', b', c'. split; reflexivity.
    + cbn [nth_error] in H1, H2. eapply IH; eassumption.
Qed.

Lemma Qc_eq_le (x y : Qc) : x = y -> x <= y /\ y <= x.
Proof. intros ->. split; apply Qcle_refl. Qed.

(** A triple that is its own statistics has three equal components. *)
Lemma fixed_point_equal (a b c : Qc) :
  calculate_statistics [a; b; c] = Ok (a, b, c) -> a = c /\ b = c.
Proof.
  intros Es. unfold calculate_statistics in Es.
  assert (Em : calculate_mean [a; b; c] = Ok (triple_mean a b c))
    by apply final_value.
  rewrite Em in Es. cbn [bind] in Es.
  destruct (calculate_median [a; b; c]) as [b'|]; [|discriminate].
  destruct (calculate_mode [a; b; c]) as [c'|] eqn:Ec; [|discriminate].
  cbn [bind] in Es. injection Es as Ha -> ->.
  assert (Hsum : a + a + a = a + b + c).
  { rewrite <- Ha at 1 2 3. unfold triple_mean. rewrite lit_3.
    field. exact three_neq_0. }
  destruct (Qc_eq_le _ _ Hsum) as [Hs1 Hs2].
  assert (Hac : a = c \/ b = c).
  { destruct (calculate_mode_cases [a; b; c]) as (m & Hm & H1 & Hn1);
      [discriminate|].
    destruct (Nat.eq_dec m 1) as [E1|E1].
    - left. rewrite (H1 E1), Em in Ec. injection Ec as Hc. congruence.
    - destruct (Hn1 E1) as (v & Ev & _ & Hocc & _).
      rewrite Ec in Ev. injection Ev as <-.
      destruct Hm as [(x & Hx & Ex) _].
      assert (Hm1 : (1 <= m)%nat).
      { rewrite <- Ex. apply (count_occ_In Qc_eq_dec) in Hx. exact Hx. }
      simpl in Hocc.
      destruct (Qc_eq_dec a c) as [->|]; [now left|].
      destruct (Qc_eq_dec b c) as [->|]; [now right|].
      destruct (Qc_eq_dec c c); [|congruence]. lia. }
  destruct Hac as [<-|<-].
  - split; [reflexivity|]. apply Qcle_antisym; qc_lra.
  - split; [|reflexivity]. apply Qcle_antisym; qc_lra.
Qed.

Lemma stagnated_fixed_point_fact (fuel : nat) (initial_data : list Qc)
    (epsilon : criterion) (r : outcome) :
  equilibrium_statistic fuel initial_data epsilon = Some (Ok r) ->
  reason r = Stagnated ->
  exists c,
    last (history r) [] = [c; c; c] /\
    absolute_stat r = c /\
    calculate_statistics [c; c; c] = Ok (c, c, c) /\
    match epsilon with
    | StagnationOnly => True
    | Epsilon e => e < 0
    end.
Proof.
  intros E Hr.
  destruct (returned_history_prefix _ _ _ _ E)
    as (ts0 & a & b & c & Etr0 & Hab & _ & _ & Hlast).
  destruct (run_returns_at_first_stop_fact _ _ _ _ E)
    as (ts & Etr & Hstop & _ & _).
  rewrite Etr0 in Etr. injection Etr as <-.
  rewrite Hr in Hstop. cbn [stops_at] in Hstop.
  rewrite last_last in Hstop. destruct Hstop as [Hnc Est].
  apply check_stagnation_true_iff in Est. destruct Est as [Hlen [t Et]].
  set (full := ts0 ++ [[a; b; c]]) in *.
  assert (Hfull : length full = S (length ts0)).
  { unfold full. rewrite length_app. cbn [length]. lia. }
  assert (Hnth : forall i, (i < 1000)%nat ->
            nth_error full (length full - 1000 + i) = Some t).
  { intros i Hi. rewrite <- nth_error_skipn, Et.
    now apply nth_error_repeat. }
  assert (Ht : t = [a; b; c]).
  { pose proof (Hnth 999%nat ltac:(lia)) as H.
    replace (length full - 1000 + 999)%nat with (length ts0) in H by lia.
    unfold full in H. rewrite nth_error_app2, Nat.sub_diag in H by lia.
    cbn [nth_error] in H. now injection H as <-. }
  subst t.
  destruct (triples_step _ _ _ (length full - 1000 + 998) [a; b; c]
              [a; b; c] Etr0 (Hnth 998%nat ltac:(lia)))
    as (a' & b' & c' & Eabc & Es).
  { replace (S (length full - 1000 + 998))
      with (length full - 1000 + 999)%nat by lia.
    apply Hnth. lia. }
  injection Eabc as <- <- <-.
  destruct (fixed_point_equal a b c Es) as [-> ->].
  exists c. split; [exact Hlast|].
  split; [now rewrite Hab, triple_mean_identical|].
  split; [exact Es|].
  destruct epsilon as [e|]; [|exact I]. cbn [never_converges] in Hnc.
  apply Qcnot_le_lt. intros He.
  rewrite (check_convergence_identical c e He) in Hnc. discriminate.
Qed.

Lemma return_kind_by_epsilon_fact (fuel : nat) (initial_data : list Qc)
    (e : Qc) (r : outcome) :
  equilibrium_statistic fuel initial_data (Epsilon e) = Some (Ok r) ->
  (0 <= e -> reason r = Converged) /\
  (e < 0 -> reason r = Stagnated).
Proof.
  intros E. split.
  - intros He. destruct (reason r) eqn:Hr; [reflexivity|].
    destruct (stagnated_fixed_point_fact _ _ _ _ E Hr) as (c & _ & _ & _ & Hneg).
    destruct (Qcle_not_lt _ _ He Hneg).
  - intros He. destruct (reason r) eqn:Hr; [|reflexivity].
    destruct (converged_within_epsilon_fact _ _ _ _ E Hr)
      as (a & b & c & _ & _ & Hpair).
    pose proof (Hpair a a (or_introl eq_refl) (or_introl eq_refl)).
    qc_lra.
Qed.

(** A return by stagnation needs 1000 rounds or more; its last triple is
    its own statistics, it has not passed the convergence test, its mean
    is the final value and it is the last entry of the returned
    history. *)
Theorem stagnated_fixed_point (fuel : nat) (initial_data : list Qc)
    (epsilon : criterion) (r : outcome) :
  equilibrium_statistic fuel initial_data epsilon = Some (Ok r) ->
  reason r = Stagnated ->
  (1000 <= iterations r)%nat /\
  exists a b c,
    last (history r) [] = [a; b; c] /\
    absolute_stat r = triple_mean a b c /\
    calculate_statistics [a; b; c] = Ok (a, b, c) /\
    never_converges epsilon [a; b; c].
Proof.
  intros E Hr. split.
  - destruct (run_returns_at_first_stop_fact _ _ _ _ E)
      as (ts & Etr & Hstop & _).
    rewrite Hr in Hstop. destruct Hstop as [_ Est].
    apply check_stagnation_true_iff in Est. destruct Est as [Hlen _].
    now rewrite (proj1 (triples_shape _ _ _ Etr)) in Hlen.
  - destruct (stagnated_fixed_point_fact _ _ _ _ E Hr)
      as (c & Hlast & Hab & Es & Hcrit).
    exists c, c, c. split; [exact Hlast|].
    split; [now rewrite triple_mean_identical|]. split; [exact Es|].
    destruct epsilon as [e|]; [|exact I].
    now apply check_convergence_identical_neg.
Qed.

Lemma stagnated_fixed_point_witness :
  exists r,
    equilibrium_statistic 1000 [lit 5 1; lit 5 1] StagnationOnly
    = Some (Ok r) /\
    reason r = Stagnated /\
    (1000 <= iterations r)%nat /\
    exists a b c,
      last (history r) [] = [a; b; c] /\
      absolute_stat r = triple_mean a b c /\
      calculate_statistics [a; b; c] = Ok (a, b, c) /\
      never_converges StagnationOnly [a; b; c].
Proof.
  eexists. split; [vm_compute; reflexivity|]. split; [reflexivity|].
  apply (stagnated_fixed_point 1000 [lit 5 1; lit 5 1] StagnationOnly).
  - vm_compute. reflexivity.
  - reflexivity.
Defined.

(** With a negative epsilon a run can only return by stagnation: no
    triple has a negative spread. *)
Theorem negative_epsilon_stagnates (fuel : nat) (initial_data : list Qc)
    (e : Qc) (r : outcome) :
  equilibrium_statistic fuel initial_data (Epsilon e) = Some (Ok r) ->
  e < 0 -> reason r = Stagnated.
Proof.
  intros E. apply (return_kind_by_epsilon_fact _ _ _ _ E).
Qed.

Lemma negative_epsilon_stagnates_witness :
  exists r,
    equilibrium_statistic 1000 [lit 5 1] (Epsilon (lit (-1) 1))
    = Some (Ok r) /\
    lit (-1) 1 < 0 /\ reason r = Stagnated.
Proof.
  assert (He : lit (-1) 1 < 0) by reflexivity.
  eexists. split; [vm_compute; reflexivity|]. split; [exact He|].
  refine (negative_epsilon_stagnates 1000 [lit 5 1] (lit (-1) 1) _ _ He).
  vm_compute. reflexivity.
Defined.

End Outcomes.

(** * Datasets of three values *)

Section Triples.

Import Py PyFacts.
Local Open Scope Qc_scope.








End Triples.

(** * Other windows of the stagnation test *)

Section Windows.

Import Py PyFacts.
Local Open Scope nat_scope.

(** For every positive window [w], [check_stagnation] returns a boolean,
    true exactly when the history has at least [w] entries and its last
    [w] entries are one and the same. *)
Theorem check_stagnation_positive_window (w : nat)
    (iteration_history : list (list Qc)) :
  0 < w ->
  exists b,
    check_stagnation iteration_history w = Ok b /\
    (b = true <->
     w <= length iteration_history /\
     exists t,
       skipn (length iteration_history - w) iteration_history = repeat t w).
Proof.
  intros Hw. destruct w as [|w]; [lia|]. apply check_stagnation_window.
Qed.

Lemma check_stagnation_positive_window_witness :
  0 < 2 /\
  exists b,
    check_stagnation
      [[lit 1 1; lit 1 1; lit 1 1]; [lit 2 1; lit 2 1; lit 2 1];
       [lit 2 1; lit 2 1; lit 2 1]] 2 = Ok b /\
    (b = true <->
     2 <= 3 /\
     exists t,
       skipn (3 - 2)
         [[lit 1 1; lit 1 1; lit 1 1]; [lit 2 1; lit 2 1; lit 2 1];
          [lit 2 1; lit 2 1; lit 2 1]] = repeat t 2).
Proof.
  assert (Hw : 0 < 2) by lia. split; [exact Hw|].
  exact (check_stagnation_positive_window 2
           [[lit 1 1; lit 1 1; lit 1 1]; [lit 2 1; lit 2 1; lit 2 1];
            [lit 2 1; lit 2 1; lit 2 1]] Hw).
Defined.

(** The window 0: the slice [history[-0:]] is the whole history, so the
    test raises [IndexError] on the empty history (it reads [recent[0]])
    and otherwise says whether all entries of the history are the same. *)
Theorem check_stagnation_zero_window :
  check_stagnation [] 0 = Raise IndexError /\
  forall t iteration_history,
    exists b,
      check_stagnation (t :: iteration_history) 0 = Ok b /\
      (b = true <->
       iteration_history = repeat t (length iteration_history)).
Proof.
  split; [reflexivity|]. intros t h. unfold check_stagnation.
  cbn [Nat.ltb Nat.leb last_n index nth_error bind tl].
  eexists. split; [reflexivity|]. apply forallb_list_eqb.
Qed.

End Windows.

(** * The median splits the data *)

Section MedianHalves.

Import Py PyFacts.
Local Open Scope nat_scope.











End MedianHalves.

(** * The chart *)

Section Chart.

Import Py PyFacts.
Local Open Scope nat_scope.

Lemma comprehension_index_ok (i : nat) (h : list (list Qc)) :
  Forall (fun t => i < length t) h ->
  exists col,
    comprehension (fun stats => index stats i) h = Ok col /\
    length col = length h /\
    forall x, In x col <-> exists t, In t h /\ nth_error t i = Some x.
Proof.
  induction 1 as [|t h Ht _ IH].
  - exists []. split; [reflexivity|]. split; [reflexivity|].
    intros x. split; [intros []|intros (t & [] & _)].
  - destruct IH as (col & E & Hlen & Hin).
    destruct (nth_error t i) as [y|] eqn:Ey.
    2:{ apply nth_error_None in Ey. lia. }
    exists (y :: col). cbn [comprehension]. unfold index at 1.
    rewrite Ey. cbn [bind]. rewrite E. cbn [bind].
    split; [reflexivity|]. split; [simpl; lia|].
    intros x. split.
    + intros [<-|Hx].
      * exists t. split; [now left|exact Ey].
      * apply Hin in Hx. destruct Hx as (t' & Ht' & Ex).
        exists t'. split; [now right|exact Ex].
    + intros (t' & [<-|Ht'] & Ex).
      * left. congruence.
      * right. apply Hin. now exists t'.
Qed.

Lemma comprehension_index_raise (i : nat) (h : list (list Qc)) :
  Exists (fun t => length t <= i) h ->
  comprehension (fun stats => index stats i) h = Raise IndexError.
Proof.
  induction h as [|t h IH]; intros Hex; [inversion Hex|].
  cbn [comprehension]. unfold index at 1.
  destruct (nth_error t i) as [y|] eqn:Ey; [|reflexivity].
  cbn [bind]. inversion Hex as [? ? Ht|? ? Hh]; subst.
  - apply nth_error_None in Ht. congruence.
  - now rewrite (IH Hh).
Qed.

Lemma spread_of_ok (values : list Qc) :
  values <> [] ->
  exists mn mx,
    is_min mn values /\ is_max mx values /\
    spread_of values = Ok (mx - mn)%Qc /\ (0 <= mx - mn)%Qc.
Proof.
  intros Hne. destruct (min_spec values Hne) as (mn & Emn & Hmn).
  destruct (max_spec values Hne) as (mx & Emx & Hmx).
  exists mn, mx. unfold spread_of. rewrite Emx, Emn.
  repeat split; try apply Hmn; try apply Hmx.
  destruct Hmn as [Hin Hle]. destruct Hmx as [_ Hge].
  specialize (Hge mn Hin). qc_lra.
Qed.

Lemma max2_pos (a b : Qc) : (0 < a)%Qc -> (0 < max2 a b)%Qc.
Proof.
  intros Ha. unfold max2. destruct (ltb a b) eqn:E; [|exact Ha].
  apply ltb_lt in E. eapply Qclt_trans; eassumption.
Qed.

Lemma div_ok (x y : Qc) : y <> 0%Qc -> div x y = Ok (x / y)%Qc.
Proof.
  intros Hy. unfold div. destruct (eqb y 0) eqn:E; [|reflexivity].
  apply eqb_eq in E. contradiction.
Qed.

Lemma Forall_Exists_short (h : list (list Qc)) :
  Forall (fun t => 3 <= length t) h \/ Exists (fun t => length t < 3) h.
Proof.
  induction h as [|t h [IH|IH]].
  - left. constructor.
  - destruct (Nat.lt_ge_cases (length t) 3) as [H|H].
    + right. now constructor.
    + left. now constructor.
  - right. now apply Exists_cons_tl.
Qed.

(** Everything [plot_convergence] computes on a well-shaped history. *)
Lemma plot_convergence_figure (t0 : list Qc) (h : list (list Qc))
    (epsilon : criterion) (final_value : Qc) :
  Forall (fun t => 3 <= length t) (t0 :: h) ->
  exists fig y_min y_max,
    plot_convergence (t0 :: h) epsilon final_value = Ok (Some fig) /\
    xs fig = seq 1 (S (length h)) /\
    total_iterations fig = S (length h) /\
    length (means fig) = S (length h) /\
    length (medians fig) = S (length h) /\
    length (modes fig) = S (length h) /\
    (forall x, In x (means fig) <->
               exists t, In t (t0 :: h) /\ nth_error t 0 = Some x) /\
    (forall x, In x (medians fig) <->
               exists t, In t (t0 :: h) /\ nth_error t 1 = Some x) /\
    (forall x, In x (modes fig) <->
               exists t, In t (t0 :: h) /\ nth_error t 2 = Some x) /\
    is_min y_min (means fig ++ medians fig ++ modes fig) /\
    is_max y_max (means fig ++ medians fig ++ modes fig) /\
    ylim fig
    = (if ltb 0%Qc (y_max - y_min)%Qc
       then Some (y_min - lit 1 10 * (y_max - y_min),
                  y_max + lit 1 10 * (y_max - y_min))%Qc
       else None) /\
    (0 <= initial_spread fig)%Qc /\ (0 <= final_spread fig)%Qc /\
    rate fig
    = (initial_spread fig
       / max2 (lit 1 10000000000) (final_spread fig))%Qc.
Proof.
  intros Hall.
  assert (H0 : Forall (fun t : list Qc => 0 < length t) (t0 :: h))
    by (eapply Forall_impl; [|exact Hall]; simpl; intros; lia).
  assert (H1 : Forall (fun t : list Qc => 1 < length t) (t0 :: h))
    by (eapply Forall_impl; [|exact Hall]; simpl; intros; lia).
  assert (H2 : Forall (fun t : list Qc => 2 < length t) (t0 :: h))
    by (eapply Forall_impl; [|exact Hall]; simpl; intros; lia).
  destruct (comprehension_index_ok 0 _ H0) as (c0 & E0 & L0 & I0).
  destruct (comprehension_index_ok 1 _ H1) as (c1 & E1 & L1 & I1).
  destruct (comprehension_index_ok 2 _ H2) as (c2 & E2 & L2 & I2).
  assert (Hne : c0 ++ c1 ++ c2 <> []).
  { destruct c0; [discriminate|discriminate]. }
  destruct (min_spec _ Hne) as (mn & Emn & Hmn).
  destruct (max_spec _ Hne) as (mx & Emx & Hmx).
  assert (Hnonempty : forall t, In t (t0 :: h) -> t <> []).
  { intros t Ht ->. rewrite Forall_forall in Hall.
    specialize (Hall [] Ht). simpl in Hall. lia. }
  destruct (spread_of_ok t0 (Hnonempty t0 (or_introl eq_refl)))
    as (mn0 & mx0 & _ & _ & Es0 & Hs0).
  destruct (nth_error (t0 :: h) (length (t0 :: h) - 1)) as [tl|] eqn:Etl.
  2:{ apply nth_error_None in Etl. simpl in Etl. lia. }
  destruct (spread_of_ok tl (Hnonempty tl (nth_error_In _ _ Etl)))
    as (mnl & mxl & _ & _ & Esl & Hsl).
  assert (Hd : max2 (lit 1 10000000000) (mxl - mnl)%Qc <> 0%Qc).
  { intros E. pose proof (max2_pos (lit 1 10000000000) (mxl - mnl)%Qc
                            eq_refl) as Hp.
    rewrite E in Hp. discriminate Hp. }
  eexists. exists mn, mx. split.
  { unfold plot_convergence. rewrite E0. cbn [bind]. rewrite E1.
    cbn [bind]. rewrite E2. cbn [bind]. rewrite Emn. cbn [bind].
    rewrite Emx. cbn [bind].
    unfold index at 1. cbn [nth_error bind]. rewrite Es0. cbn [bind].
    unfold index at 1. rewrite Etl. cbn [bind]. rewrite Esl. cbn [bind].
    rewrite (div_ok _ _ Hd). cbn [bind]. reflexivity. }
  cbn [xs total_iterations means medians modes ylim initial_spread
         final_spread rate length].
  simpl length in L0, L1, L2.
  repeat (split; [first [reflexivity|assumption]|]).
  reflexivity.
Qed.

Lemma Forall_Exists_length (i : nat) (h : list (list Qc)) :
  Forall (fun t => i < length t) h \/ Exists (fun t => length t <= i) h.
Proof.
  induction h as [|t h [IH|IH]].
  - left. constructor.
  - destruct (Nat.lt_ge_cases i (length t)) as [H|H].
    + left. now constructor.
    + right. now constructor.
  - right. now apply Exists_cons_tl.
Qed.

(** [plot_convergence] returns without a figure on the empty history,
    computes a figure when every entry has three numbers or more, and
    raises [IndexError] when an entry has fewer. *)
Theorem plot_convergence_raises (iteration_history : list (list Qc))
    (epsilon : criterion) (final_value : Qc) :
  (iteration_history = [] ->
   plot_convergence iteration_history epsilon final_value = Ok None) /\
  (iteration_history <> [] ->
   Forall (fun t => 3 <= length t) iteration_history ->
   exists fig,
     plot_convergence iteration_history epsilon final_value
     = Ok (Some fig)) /\
  (Exists (fun t => length t < 3) iteration_history ->
   plot_convergence iteration_history epsilon final_value
   = Raise IndexError).
Proof.
  split; [intros ->; reflexivity|]. split.
  - intros Hne Hall. destruct iteration_history as [|t0 h]; [congruence|].
    destruct (plot_convergence_figure t0 h epsilon final_value Hall)
      as (fig & _ & _ & E & _).
    now exists fig.
  - intros Hex. destruct iteration_history as [|t0 h]; [inversion Hex|].
    unfold plot_convergence.
    destruct (Forall_Exists_length 0 (t0 :: h)) as [H0|H0].
    2:{ now rewrite (comprehension_index_raise 0 _ H0). }
    destruct (comprehension_index_ok 0 _ H0) as (c0 & -> & _).
    cbn [bind].
    destruct (Forall_Exists_length 1 (t0 :: h)) as [H1|H1].
    2:{ now rewrite (comprehension_index_raise 1 _ H1). }
    destruct (comprehension_index_ok 1 _ H1) as (c1 & -> & _).
    cbn [bind].
    rewrite (comprehension_index_raise 2); [reflexivity|].
    eapply Exists_impl; [|exact Hex]. simpl. intros; lia.
Qed.

Lemma plot_convergence_raises_witness :
  Exists (fun t => length t < 3)
    [[lit 1 1; lit 1 1; lit 1 1]; [lit 2 1; lit 2 1]] /\
  plot_convergence [[lit 1 1; lit 1 1; lit 1 1]; [lit 2 1; lit 2 1]]
    StagnationOnly (lit 1 1) = Raise IndexError.
Proof.
  assert (Hex : Exists (fun t => length t < 3)
                  [[lit 1 1; lit 1 1; lit 1 1]; [lit 2 1; lit 2 1]]).
  { apply Exists_cons_tl. constructor. simpl. lia. }
  split; [exact Hex|].
  exact (proj2 (proj2 (plot_convergence_raises _ StagnationOnly (lit 1 1)))
           Hex).
Defined.

Lemma ylim_strict (m M x : Qc) :
  (0 < M - m -> m <= x -> x <= M ->
   m - lit 1 10 * (M - m) < x /\ x < M + lit 1 10 * (M - m))%Qc.
Proof. intros H0 H1 H2. split; qc_lra. Qed.

Lemma ylim_flat (m M x v : Qc) :
  (M - m <= 0 -> m <= x -> x <= M -> m <= v -> v <= M -> x = v)%Qc.
Proof. intros H0 H1 H2 H3 H4. apply Qcle_antisym; qc_lra. Qed.

Lemma rate_nonneg (i f : Qc) :
  (0 <= i -> 0 <= i / max2 (lit 1 10000000000) f)%Qc.
Proof.
  intros Hi.
  pose proof (max2_pos (lit 1 10000000000) f eq_refl) as Hd.
  apply (Qcmult_lt_0_le_reg_r _ _ _ Hd). rewrite Qcmult_0_l.
  replace (i / max2 (lit 1 10000000000) f
           * max2 (lit 1 10000000000) f)%Qc with i; [exact Hi|].
  field. intros E0. rewrite E0 in Hd. discriminate Hd.
Qed.

Lemma plot_convergence_of_run_fact (fuel : nat) (initial_data : list Qc)
    (epsilon : criterion) (r : outcome) :
  equilibrium_statistic fuel initial_data epsilon = Some (Ok r) ->
  exists fig,
    plot_convergence (history r) epsilon (absolute_stat r) = Ok (Some fig) /\
    total_iterations fig = length (history r) /\
    length (means fig) = length (history r) /\
    length (medians fig) = length (history r) /\
    length (modes fig) = length (history r) /\
    (forall lo hi,
        ylim fig = Some (lo, hi) ->
        forall x, In x (means fig ++ medians fig ++ modes fig) ->
                  (lo <= x /\ x <= hi)%Qc) /\
    (ylim fig = None ->
     forall x y,
       In x (means fig ++ medians fig ++ modes fig) ->
       In y (means fig ++ medians fig ++ modes fig) -> x = y) /\
    (0 <= rate fig)%Qc.
Proof.
  intros E.
  destruct (returned_history_shape_fact _ _ _ _ E) as (Hlen & _ & Hshape).
  destruct (history r) as [|t0 h] eqn:Eh; [simpl in Hlen; lia|].
  assert (Hall : Forall (fun t : list Qc => 3 <= length t) (t0 :: h)).
  { eapply Forall_impl; [|exact Hshape]. simpl. intros; lia. }
  destruct (plot_convergence_figure t0 h epsilon (absolute_stat r) Hall)
    as (fig & y_min & y_max & Ef & _ & Ht & L0 & L1 & L2 & I0 & I1 & I2
        & [_ Hmin] & [_ Hmax] & Eylim & Hi & Hfin & Erate).
  exists fig. split; [exact Ef|].
  cbn [length]. repeat (split; [assumption|]).
  rewrite Eylim.
  destruct (ltb 0%Qc (y_max - y_min)%Qc) eqn:Er.
  - apply ltb_lt in Er. split; [|split; [discriminate|]].
    + intros lo hi Elim. injection Elim as <- <-.
      intros x Hx.
      destruct (ylim_strict y_min y_max x Er (Hmin x Hx) (Hmax x Hx)).
      split; now apply Qclt_le_weak.
    + rewrite Erate. now apply rate_nonneg.
  - apply ltb_ge in Er. split; [intros lo hi Elim; discriminate|]. split.
    + intros _ x y Hx Hy. apply (ylim_flat y_min y_max); auto.
    + rewrite Erate. now apply rate_nonneg.
Qed.

(** On what a run returns, [plot_convergence] raises nothing and draws:
    one point per entry of the history in each of the three series; when
    the limits of the y axis are set, every plotted value lies within
    them, and otherwise all plotted values are the same; and the printed
    rate is not negative. *)
Theorem plot_convergence_of_run (fuel : nat) (initial_data : list Qc)
    (epsilon : criterion) (r : outcome) :
  equilibrium_statistic fuel initial_data epsilon = Some (Ok r) ->
  exists fig,
    plot_convergence (history r) epsilon (absolute_stat r) = Ok (Some fig) /\
    total_iterations fig = length (history r) /\
    length (means fig) = length (history r) /\
    length (medians fig) = length (history r) /\
    length (modes fig) = length (history r) /\
    (forall lo hi,
        ylim fig = Some (lo, hi) ->
        forall x, In x (means fig ++ medians fig ++ modes fig) ->
                  (lo <= x /\ x <= hi)%Qc) /\
    (ylim fig = None ->
     forall x y,
       In x (means fig ++ medians fig ++ modes fig) ->
       In y (means fig ++ medians fig ++ modes fig) -> x = y) /\
    (0 <= rate fig)%Qc.
Proof. apply plot_convergence_of_run_fact. Qed.

Lemma plot_convergence_of_run_witness :
  exists r,
    equilibrium_statistic 10 [lit 1 1; lit 2 1; lit 2 1; lit 3 1; lit 100 1]
      (Epsilon (lit 1 1000)) = Some (Ok r) /\
    exists fig,
      plot_convergence (history r) (Epsilon (lit 1 1000)) (absolute_stat r)
      = Ok (Some fig) /\
      total_iterations fig = length (history r).
Proof.
  eexists. split; [vm_compute; reflexivity|].
  destruct (plot_convergence_of_run 10
              [lit 1 1; lit 2 1; lit 2 1; lit 3 1; lit 100 1]
              (Epsilon (lit 1 1000)) _ ltac:(vm_compute; reflexivity))
    as (fig & Ef & Ht & _).
  exists fig. split; [exact Ef|exact Ht].
Defined.

End Chart.

(** * The console *)

Section ConsoleFacts.

Local Open Scope nat_scope.

Variable float : list N -> option PrimFloat.float.
Variable lower : list N -> list N.

Lemma comprehension_float (l : list (list N)) (data : list B64.num) :
  comprehension (fun x => float_result float (Text.strip x)) l = Ok data ->
  Forall B64.is_float data.
Proof.
  revert data. induction l as [|x l IH]; intros data.
  - intros E. injection E as <-. constructor.
  - cbn [comprehension]. unfold float_result at 1.
    destruct (float (Text.strip x)) as [v|]; [|discriminate].
    cbn [bind].
    destruct (comprehension _ l) as [ys|]; [|discriminate].
    cbn [bind]. intros E. injection E as <-.
    constructor; [exact I|now apply IH].
Qed.

(** Each prompt loop reads one line or more and returns a checked
    value. *)
Lemma read_data_valid (inputs : list (list N)) (data : list B64.num)
    (rest : list (list N)) :
  read_data float inputs = Got data rest ->
  data <> [] /\ Forall B64.is_float data /\
  exists used, inputs = used ++ rest /\ 1 <= length used.
Proof.
  induction inputs as [|line inputs IH]; [discriminate|].
  cbn [read_data].
  assert (Hstep : read_data float inputs = Got data rest ->
            data <> [] /\ Forall B64.is_float data /\
            exists used, line :: inputs = used ++ rest /\ 1 <= length used).
  { intros E. destruct (IH E) as (Hne & Hfl & used & -> & Hlen).
    split; [exact Hne|]. split; [exact Hfl|]. exists (line :: used).
    split; [reflexivity|simpl; lia]. }
  destruct (comprehension _ _) as [d|e] eqn:Ec; [|exact Hstep].
  destruct (Nat.ltb (length d) 1) eqn:El; [exact Hstep|].
  intros E. injection E as <- <-. apply Nat.ltb_ge in El.
  split; [destruct d; [simpl in El; lia|discriminate]|].
  split; [exact (comprehension_float _ _ Ec)|].
  exists [line]. split; [reflexivity|simpl; lia].
Qed.

Lemma read_epsilon_valid (inputs : list (list N))
    (epsilon : B64.criterion) (rest : list (list N)) :
  read_epsilon float inputs = Got epsilon rest ->
  (forall e, epsilon = B64.Epsilon e ->
     B64.is_float e /\ B64.le e (B64.Int 0) = false) /\
  exists used, inputs = used ++ rest /\ 1 <= length used.
Proof.
  induction inputs as [|line inputs IH]; [discriminate|].
  cbn [read_epsilon].
  assert (Hstep : read_epsilon float inputs = Got epsilon rest ->
            (forall e, epsilon = B64.Epsilon e ->
               B64.is_float e /\ B64.le e (B64.Int 0) = false) /\
            exists used, line :: inputs = used ++ rest /\ 1 <= length used).
  { intros E. destruct (IH E) as (Hpos & used & -> & Hlen).
    split; [exact Hpos|]. exists (line :: used).
    split; [reflexivity|simpl; lia]. }
  assert (Hhere : exists used,
            line :: inputs = used ++ inputs /\ 1 <= length used).
  { exists [line]. split; [reflexivity|simpl; lia]. }
  destruct (negb (Text.truthy (Text.strip line))).
  - intros E. injection E as <- <-. split; [|exact Hhere].
    intros e E. injection E as <-. split; [exact I|].
    vm_compute. reflexivity.
  - destruct (Text.eqb (Text.strip line) _).
    + intros E. injection E as <- <-. split; [|exact Hhere].
      intros e E. discriminate.
    + unfold float_result.
      destruct (float (Text.strip line)) as [v|]; [|exact Hstep].
      destruct (B64.le (B64.Float v) (B64.Int 0)) eqn:Ev; [exact Hstep|].
      intros E. injection E as <- <-. split; [|exact Hhere].
      intros e E. injection E as <-. split; [exact I|exact Ev].
Qed.

Lemma read_graph_valid (inputs : list (list N)) (g : bool)
    (rest : list (list N)) :
  read_graph lower inputs = Got g rest ->
  exists used, inputs = used ++ rest /\ 1 <= length used.
Proof.
  induction inputs as [|line inputs IH]; [discriminate|].
  cbn [read_graph].
  assert (Hhere : exists used,
            line :: inputs = used ++ inputs /\ 1 <= length used).
  { exists [line]. split; [reflexivity|simpl; lia]. }
  destruct (Text.among _ _).
  - intros E. injection E as <- <-. exact Hhere.
  - destruct (Text.among _ _).
    + intros E. injection E as <- <-. exact Hhere.
    + intros E. destruct (IH E) as (used & -> & Hlen).
      exists (line :: used). split; [reflexivity|simpl; lia].
Qed.

Lemma get_user_input_valid_fact (inputs : list (list N))
    (data : list B64.num) (epsilon : B64.criterion) (show_graph : bool)
    (rest : list (list N)) :
  get_user_input float lower inputs
  = Got (data, epsilon, show_graph) rest ->
  data <> [] /\ Forall B64.is_float data /\
  (forall e, epsilon = B64.Epsilon e ->
     B64.is_float e /\ B64.le e (B64.Int 0) = false) /\
  exists used, inputs = used ++ rest /\ 3 <= length used.
Proof.
  unfold get_user_input.
  destruct (read_data float inputs) as [d r1|] eqn:E1; [|discriminate].
  destruct (read_epsilon float r1) as [eps r2|] eqn:E2; [|discriminate].
  destruct (read_graph lower r2) as [g r3|] eqn:E3; [|discriminate].
  intros E. injection E as <- <- <- <-.
  destruct (read_data_valid _ _ _ E1) as (Hne & Hfl & u1 & -> & L1).
  destruct (read_epsilon_valid _ _ _ E2) as (Hpos & u2 & -> & L2).
  destruct (read_graph_valid _ _ _ E3) as (u3 & -> & L3).
  split; [exact Hne|]. split; [exact Hfl|]. split; [exact Hpos|].
  exists (u1 ++ u2 ++ u3). split.
  - now rewrite <- !app_assoc.
  - rewrite !length_app. lia.
Qed.

(** Whatever the console says, and whatever [float] and [lower] make of
    it, what [get_user_input] returns has passed its checks: the dataset
    is a non-empty list of floats, an epsilon is a float for which
    [epsilon <= 0] is false (a positive number, or a NaN), and three lines
    or more have been read. *)
Theorem get_user_input_valid (inputs : list (list N))
    (data : list B64.num) (epsilon : B64.criterion) (show_graph : bool)
    (rest : list (list N)) :
  get_user_input float lower inputs
  = Got (data, epsilon, show_graph) rest ->
  data <> [] /\ Forall B64.is_float data /\
  (forall e, epsilon = B64.Epsilon e ->
     B64.is_float e /\ B64.le e (B64.Int 0) = false) /\
  exists used, inputs = used ++ rest /\ 3 <= length used.
Proof. apply get_user_input_valid_fact. Qed.

(** With what [get_user_input] returns, the run that [main] makes next
    raises nothing, in either mode and with whatever epsilon has passed
    the check, a NaN included. *)
Theorem get_user_input_then_run (inputs : list (list N))
    (data : list B64.num) (epsilon : B64.criterion) (show_graph : bool)
    (rest : list (list N)) :
  get_user_input float lower inputs
  = Got (data, epsilon, show_graph) rest ->
  B64.fits data ->
  forall fuel e,
    B64.equilibrium_statistic fuel data epsilon <> Some (Raise e).
Proof.
  intros E Hlen fuel e.
  destruct (get_user_input_valid_fact _ _ _ _ _ E) as (Hne & Hall & _).
  now apply equilibrium_loop_floats.
Qed.

End ConsoleFacts.

Section ConsoleWitness.

Import String PrimFloat.
Local Open Scope nat_scope.
Local Open Scope string_scope.

(** A console session: a line that is no dataset, the dataset 5, 6
    between no-break spaces, an epsilon of zero, which is asked again, the
    epsilon nan, which is taken, and no graph.  The reader of numbers
    knows the numerals 5, 6 and 0 and the word nan; [lower] is the
    lowering of the ASCII capitals. *)
Lemma get_user_input_valid_witness :
  get_user_input
    (fun s => if Text.eqb s (Text.literal "5") then Some 5%float
              else if Text.eqb s (Text.literal "6") then Some 6%float
              else if Text.eqb s (Text.literal "0") then Some 0%float
              else if Text.eqb s (Text.literal "nan") then Some nan
              else None)
    (map (fun c => if ((65 <=? c) && (c <=? 90))%N then (c + 32)%N else c))
    [Text.literal " , ";
     (160%N :: Text.literal "5, 6 ," ++ [160%N])%list;
     Text.literal "0"; Text.literal "nan"; Text.literal " N ";
     Text.literal "left over"]
  = Got ([B64.Float 5; B64.Float 6], B64.Epsilon (B64.Float nan), false)
      [Text.literal "left over"] /\
  [B64.Float 5; B64.Float 6] <> [] /\
  Forall B64.is_float [B64.Float 5; B64.Float 6] /\
  (forall e, B64.Epsilon (B64.Float nan) = B64.Epsilon e ->
     B64.is_float e /\ B64.le e (B64.Int 0) = false) /\
  exists used,
    [Text.literal " , ";
     (160%N :: Text.literal "5, 6 ," ++ [160%N])%list;
     Text.literal "0"; Text.literal "nan"; Text.literal " N ";
     Text.literal "left over"]
    = (used ++ [Text.literal "left over"])%list /\ 3 <= List.length used.
Proof.
  match goal with
  | |- get_user_input ?f ?l ?i = Got (?d, ?e, ?g) ?r /\ _ =>
      assert (E : get_user_input f l i = Got (d, e, g) r)
        by (vm_compute; reflexivity);
      split; [exact E|]; exact (get_user_input_valid f l i d e g r E)
  end.
Defined.

(** The session 5,6 then nan then yes: the run with the epsilon nan
    raises nothing. *)
Lemma get_user_input_then_run_witness :
  get_user_input
    (fun s => if Text.eqb s (Text.literal "5") then Some 5%float
              else if Text.eqb s (Text.literal "6") then Some 6%float
              else if Text.eqb s (Text.literal "nan") then Some nan
              else None)
    (map (fun c => if ((65 <=? c) && (c <=? 90))%N then (c + 32)%N else c))
    [Text.literal "5,6"; Text.literal "nan"; Text.literal "yes"]
  = Got ([B64.Float 5; B64.Float 6], B64.Epsilon (B64.Float nan), true) [] /\
  B64.fits [B64.Float 5; B64.Float 6] /\
  forall fuel e,
    B64.equilibrium_statistic fuel [B64.Float 5; B64.Float 6]
      (B64.Epsilon (B64.Float nan))
    <> Some (Raise e).
Proof.
  assert (Hlen : B64.fits [B64.Float 5; B64.Float 6]) by reflexivity.
  match goal with
  | |- get_user_input ?f ?l ?i = Got (?d, ?e, ?g) ?r /\ _ =>
      assert (E : get_user_input f l i = Got (d, e, g) r)
        by (vm_compute; reflexivity);
      split; [exact E|]; split; [exact Hlen|];
      exact (get_user_input_then_run f l i d e g r E Hlen)
  end.
Defined.

End ConsoleWitness.
